(** * Pydoop [setup.py]: a shallow embedding of the build orchestrator

    The script drives a distutils build: it generates two Python modules
    ([pydoop/config.py], [pydoop/version.py]) and a C header, registers the
    native extension modules in the module-level list [EXTENSION_MODULES],
    compiles and packages the Java component and removes the temporary build
    directory.  Everything it does is an effect on the file system, on the
    extension registry or on an external process, so the functions of the
    script are embedded as computations of a state-and-exception monad over
    an explicit [World]. *)

From Stdlib Require Import Ascii.
From stdpp Require Import gmap strings list fin_maps.

Local Open Scope string_scope.
Local Open Scope Z_scope.

(** ** Exceptions and the monad of the script *)

(** The exception classes the script raises or catches.  In Python 2
    [IOError] (raised by [open]) and [OSError] (raised by the [os] calls,
    [shutil.rmtree] and [subprocess]) are distinct classes. *)
Inductive exn : Type :=
  | OSError
  | IOError
  | ValueError
  | CalledProcessError
  | DistutilsSetupError (msg : string)
  | DistutilsOptionError (msg : string).

#[global] Instance exn_eq_dec : EqDecision exn.
Proof. solve_decision. Defined.

Inductive result (A : Type) : Type :=
  | Ok (a : A)
  | Raise (e : exn).
Arguments Ok {A} a.
Arguments Raise {A} e.

(** ** The file system *)

(** A directory entry.  Modification times are the [st_mtime] stamps of
    [os.stat]; only their order matters to the script, so they are integers
    (think of nanoseconds). *)
Inductive node : Type :=
  | File (content : string) (mtime : Z)
  | Dir (mtime : Z)
  | Link (target : string).

#[global] Instance node_eq_dec : EqDecision node.
Proof. solve_decision. Defined.

(** The file system maps a path to its entry.  Paths are the strings the
    script passes around; the directory structure is the one the strings
    spell out with ["/"].  A symbolic link stores the path it resolves to. *)
Abbreviation FS := (gmap string node).

Definition slash : ascii := "/"%char.

(** [split_last p] is [(Some d, b)] when [p] is [d/b] with [b] free of
    slashes, and [(None, p)] when [p] has no slash. *)
Fixpoint split_last (p : string) : option string * string :=
  match p with
  | EmptyString => (None, EmptyString)
  | String c p' =>
      match split_last p' with
      | (Some d, b) => (Some (String c d), b)
      | (None, b) =>
          if decide (c = slash) then (Some EmptyString, b)
          else (None, String c b)
      end
  end.

Definition dirname (p : string) : string := default "" (fst (split_last p)).
Definition basename (p : string) : string := snd (split_last p).

(** [under d p]: [p] is [d] itself or lies in the tree below [d]. *)
Definition under (d p : string) : bool :=
  bool_decide (p = d) || String.prefix (d +:+ "/") p.

(** Linux gives up with [ELOOP] after 40 nested symbolic links. *)
Definition MAXSYMLINKS : nat := 40%nat.

(** [resolve n fs p]: the path reached from [p] by following symbolic
    links, [None] when more than [n] links are chained. *)
Fixpoint resolve (n : nat) (fs : FS) (p : string) {struct n} : option string :=
  match fs !! p with
  | Some (Link t) =>
      match n with
      | O => None
      | S n' => resolve n' fs t
      end
  | _ => Some p
  end.

(** [os.stat]: follows links; [None] stands for the [OSError] of a missing
    path, a dangling link or a link loop. *)
Definition stat (fs : FS) (p : string) : option node :=
  match resolve MAXSYMLINKS fs p with
  | Some q => fs !! q
  | None => None
  end.

(** [os.lstat]: does not follow the last link. *)
Definition lstat (fs : FS) (p : string) : option node := fs !! p.

Definition node_mtime (n : node) : Z :=
  match n with
  | File _ t => t
  | Dir t => t
  | Link _ => 0
  end.

Definition is_dir_node (n : node) : bool :=
  match n with Dir _ => true | _ => false end.
Definition is_link_node (n : node) : bool :=
  match n with Link _ => true | _ => false end.
Definition is_file_node (n : node) : bool :=
  match n with File _ _ => true | _ => false end.

(** ** Extension modules, the platform version and the environment *)

(** [distutils.core.Extension], with the keyword arguments the script
    passes.  A macro is a name with an optional integer value. *)
Record Extension : Type := mkExtension {
  ext_name : string;
  ext_sources : list string;
  ext_include_dirs : list string;
  ext_libraries : list string;
  ext_library_dirs : list string;
  ext_define_macros : list (string * option Z);
  ext_extra_compile_args : list string
}.

#[global] Instance Extension_eq_dec : EqDecision Extension.
Proof. solve_decision. Defined.

(** [pydoop.hadoop_utils.HadoopVersion] as the script reads it: the version
    tuple (never empty, so it is given by its first component [tuple[0]] and
    the rest), the [main] tuple and the string form returned by [str]. *)
Record HadoopVersion : Type := mkHadoopVersion {
  tuple_0 : Z;
  tuple_rest : list Z;
  main : list Z;
  vstr : string
}.

(** What [subprocess.check_output] can do: return the output of the
    command, raise [CalledProcessError] on a non-zero exit status, or raise
    [OSError] when the program cannot be executed at all. *)
Inductive check_output_result : Type :=
  | Output (out : string)
  | ExitNonZero
  | CannotExecute.

(** The values the script takes from modules that are not part of it
    ([pydoop], [pydoop.utils.jvm], [pydoop.hdfs.core.impl]) and the
    behaviour of the processes and of the distutils base command it calls.
    An external process sees and changes the file system only. *)
Record Env : Type := mkEnv {
  JAVA_HOME : string;
  JVM_LIB_PATH : string;
  JVM_LIB_NAME : string;
  HADOOP_HOME : option string;
  HADOOP_VERSION_INFO : HadoopVersion;
  jvm_get_include_dirs : list string;
  jvm_get_libraries : list string;
  jvm_get_macros : list (string * option Z);
  pydoop_jar_name : HadoopVersion -> string;
  pydoop_hadoop_classpath : option string;
  hdfsimpl_DEFAULT : string;
  hdfsimpl_NATIVE : string;
  hdfsimpl_SUPPORTED : list string;
  git_rev_parse_HEAD : check_output_result;
  os_system : string -> FS -> Z * FS;
  build_run : list Extension -> FS -> result unit * FS
}.

(** ** The world *)

(** Calls that leave the script, in the order they were made:
    [os.system(cmd)], [subprocess.check_output(argv)], the base build,
    [time.sleep], [shutil.rmtree] of the build tree and [print]. *)
Inductive event : Type :=
  | EvSystem (cmd : string)
  | EvCheckOutput (argv : list string)
  | EvBaseBuild
  | EvSleep
  | EvRmtree (path : string)
  | EvPrint (line : string).

#[global] Instance event_eq_dec : EqDecision event.
Proof. solve_decision. Defined.

Record World : Type := mkWorld {
  fs : FS;
  (** entries the operating system refuses to remove or to overwrite
      ([EACCES], [EPERM], [EBUSY]) *)
  denied : gset string;
  clock : Z;
  log : list string;
  trace : list event;
  EXTENSION_MODULES : list Extension
}.

Definition set_fs (f : FS) (w : World) : World :=
  mkWorld f (denied w) (clock w) (log w) (trace w) (EXTENSION_MODULES w).
Definition add_log (l : string) (w : World) : World :=
  mkWorld (fs w) (denied w) (clock w) (log w ++ [l]) (trace w)
    (EXTENSION_MODULES w).
Definition add_event (e : event) (w : World) : World :=
  mkWorld (fs w) (denied w) (clock w) (log w) (trace w ++ [e])
    (EXTENSION_MODULES w).
Definition tick (w : World) : World :=
  mkWorld (fs w) (denied w) (clock w + 1) (log w) (trace w)
    (EXTENSION_MODULES w).
Definition append_extension (e : Extension) (w : World) : World :=
  mkWorld (fs w) (denied w) (clock w) (log w) (trace w)
    (EXTENSION_MODULES w ++ [e]).

Definition M (A : Type) : Type := World -> result A * World.

Definition ret {A} (a : A) : M A := fun w => (Ok a, w).
Definition raise {A} (e : exn) : M A := fun w => (Raise e, w).
Definition bind {A B} (m : M A) (k : A -> M B) : M B :=
  fun w =>
    match m w with
    | (Ok a, w') => k a w'
    | (Raise e, w') => (Raise e, w')
    end.

#[global] Instance M_ret : MRet M := @ret.
#[global] Instance M_bind : MBind M := fun A B k m => bind m k.

(** [try: body except E: handler]: [catches e] tells whether the clause
    handles [e]; the handler runs in the state the body left. *)
Definition try_except {A} (body : M A) (catches : exn -> bool)
    (handler : M A) : M A :=
  fun w =>
    match body w with
    | (Ok a, w') => (Ok a, w')
    | (Raise e, w') => if catches e then handler w' else (Raise e, w')
    end.

(** [try: body finally: fin]: [fin] always runs; an exception it raises
    replaces the outcome of the body. *)
Definition try_finally {A} (body : M A) (fin : M unit) : M A :=
  fun w =>
    match body w with
    | (r, w') =>
        match fin w' with
        | (Ok _, w'') => (r, w'')
        | (Raise e, w'') => (Raise e, w'')
        end
    end.

Definition is_OSError (e : exn) : bool :=
  match e with OSError => true | _ => false end.
Definition is_IOError (e : exn) : bool :=
  match e with IOError => true | _ => false end.
Definition is_CalledProcessError (e : exn) : bool :=
  match e with CalledProcessError => true | _ => false end.

Definition when_ (b : bool) (m : M unit) : M unit :=
  if b then m else ret tt.

(** ** Operating-system calls *)

Definition log_info (l : string) : M unit := fun w => (Ok tt, add_log l w).
Definition log_warn (l : string) : M unit := fun w => (Ok tt, add_log l w).

Definition os_path_exists (p : string) : M bool :=
  fun w => (Ok (bool_decide (is_Some (stat (fs w) p))), w).

Definition os_path_isdir (p : string) : M bool :=
  fun w => (Ok (from_option is_dir_node false (stat (fs w) p)), w).

Definition os_path_islink (p : string) : M bool :=
  fun w => (Ok (from_option is_link_node false (lstat (fs w) p)), w).

(** [mtime(fn)]: [os.stat(fn).st_mtime]. *)
Definition mtime (fn : string) : M Z :=
  fun w =>
    match stat (fs w) fn with
    | Some n => (Ok (node_mtime n), w)
    | None => (Raise OSError, w)
    end.

(** [os.remove]: removes a file or a symbolic link (the link itself, never
    what it points to); [OSError] on a directory, on a missing path and
    when the system refuses. *)
Definition os_remove (p : string) : M unit :=
  fun w =>
    match lstat (fs w) p with
    | Some (Dir _) => (Raise OSError, w)
    | Some _ =>
        if decide (p ∈ denied w) then (Raise OSError, w)
        else (Ok tt, set_fs (delete p (fs w)) w)
    | None => (Raise OSError, w)
    end.

(** Some entry at or below [p] cannot be removed. *)
Definition blocked (w : World) (p : string) : Prop :=
  set_Exists (fun q => under p q ∧ is_Some (fs w !! q)) (denied w).

#[global] Instance blocked_dec w p : Decision (blocked w p).
Proof. unfold blocked. apply _. Defined.

(** [shutil.rmtree] with its default arguments: refuses a symbolic link,
    fails on anything that is not a directory and on the first entry it
    cannot remove, with [OSError] in each case; otherwise the directory and
    everything below it are gone.  A failing call is modelled as removing
    nothing (the real one may have removed part of the tree before the
    entry that stopped it). *)
Definition shutil_rmtree (p : string) : M unit :=
  fun w =>
    let w := add_event (EvRmtree p) w in
    match lstat (fs w) p with
    | Some (Dir _) =>
        if decide (blocked w p) then (Raise OSError, w)
        else (Ok tt, set_fs (filter (fun kv => ¬ under p kv.1) (fs w)) w)
    | _ => (Raise OSError, w)
    end.

(** The directory a new entry [p] goes into exists: the current directory
    for a bare name, a directory (possibly through a link) otherwise. *)
Definition parent_ok (f : FS) (p : string) : bool :=
  match fst (split_last p) with
  | None => true
  | Some d => from_option is_dir_node false (stat f d)
  end.

(** [os.mkdir]: [OSError] when the path exists or its parent does not. *)
Definition os_mkdir (p : string) : M unit :=
  fun w =>
    match lstat (fs w) p with
    | Some _ => (Raise OSError, w)
    | None =>
        if parent_ok (fs w) p
        then (Ok tt, tick (set_fs (<[p := Dir (clock w)]> (fs w)) w))
        else (Raise OSError, w)
    end.

(** [with open(p, "w") as f: f.write(...)], the writes given as the whole
    text: the file is created or replaced, stamped with the current time.
    [open] follows links and raises [IOError] on a directory, on a missing
    parent directory and when the system refuses. *)
Definition write_file (p : string) (text : string) : M unit :=
  fun w =>
    match resolve MAXSYMLINKS (fs w) p with
    | None => (Raise IOError, w)
    | Some q =>
        let written := tick (set_fs (<[q := File text (clock w)]> (fs w)) w) in
        match fs w !! q with
        | Some (File _ _) =>
            if decide (q ∈ denied w) then (Raise IOError, w)
            else (Ok tt, written)
        | Some _ => (Raise IOError, w)
        | None =>
            if parent_ok (fs w) q then (Ok tt, written) else (Raise IOError, w)
        end
    end.

(** [with open(p) as f: return f.read()]. *)
Definition read_file (p : string) : M string :=
  fun w =>
    match stat (fs w) p with
    | Some (File text _) => (Ok text, w)
    | _ => (Raise IOError, w)
    end.

(** The content of the file at [p], if there is one. *)
Definition content (f : FS) (p : string) : option string :=
  match stat f p with
  | Some (File text _) => Some text
  | _ => None
  end.

(** [EXTENSION_MODULES.append(e)]. *)
Definition EXTENSION_MODULES_append (e : Extension) : M unit :=
  fun w => (Ok tt, append_extension e w).

Definition time_sleep : M unit := fun w => (Ok tt, tick (add_event EvSleep w)).
Definition print (line : string) : M unit :=
  fun w => (Ok tt, add_event (EvPrint line) w).

(** ** Strings *)

Definition nl : string := String "010"%char "".

Definition is_space (c : ascii) : bool :=
  bool_decide (c ∈ [" "%char; "009"%char; "010"%char; "011"%char;
                    "012"%char; "013"%char]).

Fixpoint lstrip (s : string) : string :=
  match s with
  | String c s' => if is_space c then lstrip s' else s
  | EmptyString => EmptyString
  end.

(** [rstrip_by drop s]: [s] without its trailing characters in [drop]. *)
Fixpoint rstrip_by (drop : ascii -> bool) (s : string) : string :=
  match s with
  | EmptyString => EmptyString
  | String c s' =>
      match rstrip_by drop s' with
      | EmptyString => if drop c then EmptyString else String c EmptyString
      | r => String c r
      end
  end.

(** [s.strip()] and [s.rstrip('\n')]. *)
Definition strip (s : string) : string := rstrip_by is_space (lstrip s).
Definition rstrip_nl (s : string) : string :=
  rstrip_by (fun c => bool_decide (c = "010"%char)) s.

Definition starts_with_slash (s : string) : bool :=
  match s with
  | String c _ => bool_decide (c = slash)
  | EmptyString => false
  end.

Fixpoint ends_with_slash (s : string) : bool :=
  match s with
  | EmptyString => false
  | String c EmptyString => bool_decide (c = slash)
  | String _ s' => ends_with_slash s'
  end.

(** One step of [posixpath.join]. *)
Definition join2 (path b : string) : string :=
  if starts_with_slash b then b
  else if bool_decide (path = "") || ends_with_slash path then path +:+ b
  else path +:+ "/" +:+ b.

(** [os.path.join(a, *p)]. *)
Definition os_path_join (a : string) (p : list string) : string :=
  fold_left join2 p a.

(** [path] ends with [suffix]. *)
Definition ends_with (suffix path : string) : bool :=
  let n := String.length path in
  let k := String.length suffix in
  (k <=? n)%nat && bool_decide (String.substring (n - k) k path = suffix).

(** [glob.glob(d + "/*" + ext)]: the entries of the directory [d] whose
    name ends with [ext] and does not start with a dot, in the order the
    system lists them. *)
Definition glob_list (f : FS) (d ext : string) : list string :=
  if from_option is_dir_node false (stat f d)
  then filter (fun k => fst (split_last k) = Some d
                        ∧ ends_with ext (basename k)
                        ∧ ¬ String.prefix "." (basename k))
         (map_to_list f).*1
  else [].

Definition glob_star (d ext : string) : M (list string) :=
  fun w => (Ok (glob_list (fs w) d ext), w).

(** ["%s" % x] for a string or [None]; ["%r" % x] for the same (strings
    without quotes or escapes). *)
Definition fmt_s (x : option string) : string := default "None" x.
Definition fmt_r (x : option string) : string :=
  match x with
  | Some s => "'" +:+ s +:+ "'"
  | None => "None"
  end.

(** ** The script *)

Section Setup.

Variable env : Env.

(** [subprocess.check_output(['git', 'rev-parse', 'HEAD'])]: the call is
    recorded whatever comes of it. *)
Definition subprocess_check_output_git : M string :=
  fun w =>
    let w' := add_event (EvCheckOutput ["git"; "rev-parse"; "HEAD"]) w in
    match git_rev_parse_HEAD env with
    | Output out => (Ok out, w')
    | ExitNonZero => (Raise CalledProcessError, w')
    | CannotExecute => (Raise OSError, w')
    end.

(** [os.system(cmd)]: the exit status of the command. *)
Definition os_system_call (cmd : string) : M Z :=
  fun w =>
    let (status, f) := os_system env cmd (fs w) in
    (Ok status, add_event (EvSystem cmd) (set_fs f w)).

(** [build.run(self)], the distutils base command: it compiles the
    registered extension modules. *)
Definition build_run_call : M unit :=
  fun w =>
    let (r, f) := build_run env (EXTENSION_MODULES w) (fs w) in
    (r, add_event EvBaseBuild (set_fs f w)).

(** *** Utilities *)

Definition rm_rf (path : string) (dry_run : bool) : M unit :=
  log_info ("removing " +:+ path);;
  if dry_run then ret tt
  else
    try_except
      (isdir ← os_path_isdir path;
       islink ← os_path_islink path;
       if isdir && negb islink then shutil_rmtree path
       else os_remove path)
      is_OSError
      (ret tt).

(** The loop of the built-in [max] over the rest of the generator
    [(mtime(p) for p in prerequisites)]: the items are produced one at a
    time, and the first [OSError] ends the loop. *)
Fixpoint max_mtime_loop (maxitem : Z) (prerequisites : list string) : M Z :=
  match prerequisites with
  | [] => ret maxitem
  | p :: rest =>
      item ← mtime p;
      max_mtime_loop (if item >? maxitem then item else maxitem) rest
  end.

(** [max(mtime(p) for p in prerequisites)]: [ValueError] on an empty
    sequence. *)
Definition max_mtime (prerequisites : list string) : M Z :=
  match prerequisites with
  | [] => raise ValueError
  | p :: rest => item ← mtime p; max_mtime_loop item rest
  end.

Definition must_generate (target : string) (prerequisites : list string)
    : M bool :=
  try_except
    (newest ← max_mtime prerequisites;
     t ← mtime target;
     ret (newest >? t))
    is_OSError
    (ret true).

Definition get_version_string (filename : string) : M string :=
  try_except
    (text ← read_file filename; ret (strip text))
    is_IOError
    (raise (DistutilsSetupError "failed to read version info")).

Definition config_text (hdfs_core_impl : string) : string :=
  "# GENERATED BY setup.py" +:+ nl
  +:+ "DEFAULT_HADOOP_HOME='" +:+ fmt_s (HADOOP_HOME env) +:+ "'" +:+ nl
  +:+ "HDFS_CORE_IMPL='" +:+ hdfs_core_impl +:+ "'" +:+ nl.

Definition write_config (filename : string) (hdfs_core_impl : string)
    : M unit :=
  let prereq := "DEFAULT_HADOOP_HOME" in
  e ← os_path_exists prereq;
  when_ (negb e) (write_file prereq (fmt_s (HADOOP_HOME env) +:+ nl));;
  write_file filename (config_text hdfs_core_impl).

Definition have_better_tls : bool := false.

Definition generate_hdfs_config : M unit :=
  let config_fn :=
    os_path_join "src" ["libhdfs"; vstr (HADOOP_VERSION_INFO env); "config.h"]
  in
  write_file config_fn
    ("#ifndef CONFIG_H" +:+ nl +:+ "#define CONFIG_H" +:+ nl
     +:+ (if have_better_tls then "#define HAVE_BETTER_TLS" +:+ nl else "")
     +:+ "#endif" +:+ nl).

Definition get_git_commit : M (option string) :=
  try_except
    (out ← subprocess_check_output_git; ret (Some (rstrip_nl out)))
    is_CalledProcessError
    (ret None).

Definition version_text (version : string) (git_commit : option string)
    : string :=
  "# GENERATED BY setup.py" +:+ nl
  +:+ "version='" +:+ version
  +:+ match git_commit with
      | None => ""
      | Some c => " [" +:+ c +:+ "]"
      end
  +:+ "'" +:+ nl.

Definition write_version (filename : string) : M unit :=
  let prereq := "VERSION" in
  stale ← must_generate filename [prereq];
  when_ stale
    (version ← get_version_string prereq;
     git_commit ← get_git_commit;
     write_file filename (version_text version git_commit)).

(** *** Extension modules *)

Definition hadoop_v : Z := tuple_0 (HADOOP_VERSION_INFO env).

(** The file names the list comprehension of [build_hdfscore_native_impl]
    ranges over. *)
Definition libhdfs_files : list string :=
  if (hadoop_v <=? 1)%Z then ["hdfs.c"; "hdfsJniHelper.c"]
  else ["hdfs.c"; "jni_helper.c"; "exception.c"; "native_mini_dfs.c"].

Definition hdfs_ext_sources : list string :=
  ([] ++ map (fun x => os_path_join "src/libhdfs"
                         [vstr (HADOOP_VERSION_INFO env); x])
             libhdfs_files)
  ++ map (fun x => os_path_join "src/native_core_hdfs" [x])
       ["hdfs_module.cc"; "hdfs_file.cc"; "hdfs_fs.cc"].

Definition libhdfs_macros : list (string * option Z) :=
  [(if (hadoop_v <=? 1)%Z then "HADOOP_LIBHDFS_V1" else "HADOOP_LIBHDFS_V2",
    Some 1)].

Definition native_hdfs_core : Extension :=
  {| ext_name := "native_core_hdfs";
     ext_include_dirs :=
       jvm_get_include_dirs env
       ++ [os_path_join "src/libhdfs" [vstr (HADOOP_VERSION_INFO env)]];
     ext_libraries := jvm_get_libraries env;
     ext_library_dirs := [JAVA_HOME env +:+ "/Libraries"; JVM_LIB_PATH env];
     ext_sources := hdfs_ext_sources;
     ext_define_macros := jvm_get_macros env ++ libhdfs_macros;
     ext_extra_compile_args := ["-Xlinker"; "-rpath"; JVM_LIB_PATH env] |}.

Definition build_hdfscore_native_impl : M unit :=
  generate_hdfs_config;;
  EXTENSION_MODULES_append native_hdfs_core.

Definition binary_encoder : Extension :=
  {| ext_name := "pydoop_sercore";
     ext_sources :=
       map (fun x => os_path_join "src/serialize" [x])
         ["protocol_codec.cc"; "SerialUtils.cc"; "StringUtils.cc"];
     ext_include_dirs := [];
     ext_libraries := [];
     ext_library_dirs := [];
     ext_define_macros := [];
     ext_extra_compile_args := ["-O3"] |}.

Definition build_sercore_extension : M unit :=
  EXTENSION_MODULES_append binary_encoder.

(** *** Build engine *)

(** Comparison [a >= b] of two Python tuples of integers: the first
    position where they differ decides, and a proper prefix is smaller. *)
Fixpoint tuple_ge (a b : list Z) : bool :=
  match a, b with
  | _, [] => true
  | [], _ :: _ => false
  | x :: a', y :: b' => if (x =? y)%Z then tuple_ge a' b' else (x >? y)%Z
  end.

Record JavaLib : Type := mkJavaLib {
  hadoop_vinfo : HadoopVersion;
  jar_name : string;
  classpath : option string;
  java_files : list string
}.

(** [JavaLib.__init__]. *)
Definition JavaLib_init (hadoop_vinfo : HadoopVersion) : M JavaLib :=
  let java_files := ["src/it/crs4/pydoop/NoSeparatorTextOutputFormat.java"] in
  pipes ← glob_star "src/it/crs4/pydoop/pipes" ".java";
  let java_files := (java_files ++ pipes)%list in
  if tuple_ge (main hadoop_vinfo) [2; 2; 0]
  then
    mr_pipes ← glob_star "src/it/crs4/pydoop/mapreduce/pipes" ".java";
    ret (mkJavaLib hadoop_vinfo (pydoop_jar_name env hadoop_vinfo)
           (pydoop_hadoop_classpath env) (java_files ++ mr_pipes)%list)
  else
    ret (mkJavaLib hadoop_vinfo (pydoop_jar_name env hadoop_vinfo)
           (pydoop_hadoop_classpath env) java_files).

Record JavaBuilder : Type := mkJavaBuilder {
  jb_build_temp : string;
  jb_build_lib : string;
  java_libs : list JavaLib
}.

Definition JavaBuilder_init (build_temp build_lib : string) : M JavaBuilder :=
  jlib ← JavaLib_init (HADOOP_VERSION_INFO env);
  ret (mkJavaBuilder build_temp build_lib [jlib]).

(** A string or [None] taken as a condition. *)
Definition truthy (x : option string) : bool :=
  match x with
  | Some s => negb (bool_decide (s = ""))
  | None => false
  end.

Definition compile_error (compile_cmd : string) : exn :=
  DistutilsSetupError
    ("Error compiling java component.  Command: " +:+ compile_cmd).

Definition package_error (package_cmd : string) : exn :=
  DistutilsSetupError
    ("Error packaging java component.  Command: " +:+ package_cmd).

(** The command line [__build_java_lib] hands to the compiler. *)
Definition javac_command (class_dir : string) (jlib : JavaLib) : string :=
  let compile_cmd := "javac" in
  let compile_cmd :=
    if truthy (classpath jlib)
    then compile_cmd +:+ " -classpath " +:+ fmt_s (classpath jlib)
    else compile_cmd in
  let compile_cmd := compile_cmd +:+ " -d '" +:+ class_dir +:+ "'" in
  fold_left (fun cmd f => cmd +:+ " " +:+ f) (java_files jlib) compile_cmd.

(** [JavaBuilder.__build_java_lib]. *)
Definition build_java_lib (self : JavaBuilder) (jlib : JavaLib) : M unit :=
  log_info ("Building java code for hadoop-" +:+ vstr (hadoop_vinfo jlib));;
  when_ (negb (truthy (classpath jlib)))
    (log_warn "WARNING: could not set classpath, java code may not compile");;
  let class_dir :=
    os_path_join (jb_build_temp self) ["pipes-" +:+ vstr (hadoop_vinfo jlib)] in
  let package_path :=
    os_path_join (jb_build_lib self) ["pydoop"; jar_name jlib] in
  e ← os_path_exists class_dir;
  when_ (negb e) (os_mkdir class_dir);;
  log_info "Compiling Java classes";;
  let compile_cmd := javac_command class_dir jlib in
  status ← os_system_call compile_cmd;
  if negb (status =? 0)%Z then raise (compile_error compile_cmd)
  else
    log_info ("Making Jar: " +:+ package_path);;
    let package_cmd :=
      "jar -cf " +:+ package_path +:+ " -C " +:+ class_dir +:+ " ./it" in
    log_info "Packaging Java classes";;
    log_info ("Command: " +:+ package_cmd);;
    status ← os_system_call package_cmd;
    if negb (status =? 0)%Z then raise (package_error package_cmd)
    else ret tt.

(** [for x in xs: body(x)]. *)
Fixpoint for_each {A} (xs : list A) (body : A -> M unit) : M unit :=
  match xs with
  | [] => ret tt
  | x :: rest => body x;; for_each rest body
  end.

Definition JavaBuilder_run (self : JavaBuilder) : M unit :=
  log_info ("hadoop_home: " +:+ fmt_r (HADOOP_HOME env));;
  log_info ("hadoop_version: '" +:+ vstr (HADOOP_VERSION_INFO env) +:+ "'");;
  log_info ("java_home: " +:+ fmt_r (Some (JAVA_HOME env)));;
  for_each (java_libs self) (build_java_lib self).

(** The attributes of the [build] command the script uses. *)
Record BuildPydoop : Type := mkBuildPydoop {
  build_temp : string;
  build_lib : string;
  hdfs_core_impl : string
}.

Definition finalize_options (self : BuildPydoop) : M unit :=
  if bool_decide (hdfs_core_impl self ∈ hdfsimpl_SUPPORTED env) then ret tt
  else
    raise (DistutilsOptionError
             (fmt_r (Some (hdfs_core_impl self)) +:+ " not supported")).

Definition build_java (self : BuildPydoop) : M unit :=
  jb ← JavaBuilder_init (build_temp self) (build_lib self);
  JavaBuilder_run jb.

Definition create_tmp (self : BuildPydoop) : M unit :=
  e ← os_path_exists (build_temp self);
  when_ (negb e) (os_mkdir (build_temp self));;
  e ← os_path_exists (build_lib self);
  when_ (negb e) (os_mkdir (build_lib self)).

Definition clean_up (self : BuildPydoop) : M unit :=
  shutil_rmtree (build_temp self).

(** The steps of [BuildPydoop.run] that generate files and register the
    extension modules, before anything is compiled. *)
Definition generation_phase (self : BuildPydoop) : M unit :=
  write_config "pydoop/config.py" (hdfs_core_impl self);;
  write_version "pydoop/version.py";;
  build_sercore_extension;;
  when_ (bool_decide (hdfs_core_impl self = hdfsimpl_NATIVE env))
    build_hdfscore_native_impl.

(** The [try ... finally] of [BuildPydoop.run]. *)
Definition java_stage (self : BuildPydoop) : M unit :=
  try_finally
    (create_tmp self;; build_java self)
    (time_sleep;; clean_up self).

Definition BuildPydoop_run (self : BuildPydoop) : M unit :=
  print ("hdfs core implementation: " +:+ hdfs_core_impl self);;
  write_config "pydoop/config.py" (hdfs_core_impl self);;
  write_version "pydoop/version.py";;
  build_sercore_extension;;
  when_ (bool_decide (hdfs_core_impl self = hdfsimpl_NATIVE env))
    build_hdfscore_native_impl;;
  build_run_call;;
  try_finally
    (create_tmp self;; build_java self)
    (time_sleep;; clean_up self);;
  log_info "Build finished".

(** The loop of [Clean.run] over its list of paths. *)
Definition Clean_remove (garbage_list : list string) (dry_run : bool)
    : M unit :=
  for_each garbage_list (fun p => rm_rf p dry_run).

End Setup.

(** * Properties *)

(** Unfolding of the monad's operations. *)
Ltac unfold_M :=
  unfold mbind, M_bind, mret, M_ret, bind, ret, raise, try_except,
    try_finally, when_ in *.

(** ** The staleness check *)

(** [missing w p]: [os.stat(p)] fails. *)
Definition missing (w : World) (p : string) : Prop := stat (fs w) p = None.

(** The modification time [os.stat] reports for [p]. *)
Definition mtime_of (w : World) (p : string) : option Z :=
  node_mtime <$> stat (fs w) p.

(** [p] was modified strictly after [target]. *)
Definition newer (w : World) (p target : string) : Prop :=
  ∃ tp tt, mtime_of w p = Some tp ∧ mtime_of w target = Some tt ∧ tp > tt.

Lemma mtime_Some w p t :
  mtime_of w p = Some t → mtime p w = (Ok t, w).
Proof.
  unfold mtime_of, mtime. destruct (stat (fs w) p); simpl; congruence.
Qed.

Lemma mtime_None w p :
  missing w p → mtime p w = (Raise OSError, w).
Proof. unfold missing, mtime. by intros ->. Qed.

Lemma missing_or_mtime w p :
  missing w p ∨ ∃ t, mtime_of w p = Some t.
Proof.
  unfold missing, mtime_of. destruct (stat (fs w) p); simpl; eauto.
Qed.

Lemma missing_mtime_of w p : missing w p ↔ mtime_of w p = None.
Proof.
  unfold missing, mtime_of. destruct (stat (fs w) p); simpl; split; congruence.
Qed.

(** The loop of [max] either meets a missing prerequisite and raises
    [OSError], or returns the largest time among the running maximum and
    the prerequisites; the world is the one it started in. *)
Lemma max_mtime_loop_spec w rest : ∀ cur,
  ((∃ q, q ∈ rest ∧ missing w q)
   ∧ max_mtime_loop cur rest w = (Raise OSError, w))
  ∨ ((∀ q, q ∈ rest → ¬ missing w q)
     ∧ ∃ m, max_mtime_loop cur rest w = (Ok m, w)
            ∧ cur ≤ m
            ∧ (∀ q t, q ∈ rest → mtime_of w q = Some t → t ≤ m)
            ∧ (m = cur ∨ ∃ q, q ∈ rest ∧ mtime_of w q = Some m)).
Proof.
  induction rest as [|p rest IH]; intros cur; simpl.
  - right. split; [set_solver|]. exists cur. unfold_M.
    repeat split; [lia | set_solver | by left].
  - destruct (missing_or_mtime w p) as [Hp | [t Ht]].
    + left. split; [exists p; set_solver|].
      unfold_M. by rewrite (mtime_None _ _ Hp).
    + unfold_M. rewrite (mtime_Some _ _ _ Ht).
      destruct (IH (if t >? cur then t else cur))
        as [[(q & Hq & Hm) E] | [Hall (m & E & Hle & Hub & Hatt)]].
      * left. split; [exists q; set_solver | done].
      * right. split.
        { intros q [-> | Hq]%elem_of_cons; [| by apply Hall].
          rewrite missing_mtime_of. congruence. }
        exists m. split; [done|].
        assert (cur ≤ m ∧ t ≤ m) as [? ?]
          by (destruct (Z.gtb_spec t cur); lia).
        split; [done|]. split.
        { intros q t' [-> | Hq]%elem_of_cons Hq'; [| by eapply Hub].
          congruence. }
        destruct Hatt as [-> | (q & Hq & Hm)].
        -- destruct (Z.gtb_spec t cur); [right | by left].
           exists p. split; [set_solver | done].
        -- right. exists q. split; [set_solver | done].
Qed.

(** [max] over a non-empty sequence of prerequisites. *)
Lemma max_mtime_spec w p rest :
  ((∃ q, q ∈ p :: rest ∧ missing w q)
   ∧ max_mtime (p :: rest) w = (Raise OSError, w))
  ∨ ((∀ q, q ∈ p :: rest → ¬ missing w q)
     ∧ ∃ m, max_mtime (p :: rest) w = (Ok m, w)
            ∧ (∀ q t, q ∈ p :: rest → mtime_of w q = Some t → t ≤ m)
            ∧ (∃ q, q ∈ p :: rest ∧ mtime_of w q = Some m)).
Proof.
  unfold max_mtime.
  destruct (missing_or_mtime w p) as [Hp | [t Ht]].
  - left. split; [exists p; set_solver|].
    unfold_M. by rewrite (mtime_None _ _ Hp).
  - unfold_M. rewrite (mtime_Some _ _ _ Ht).
    destruct (max_mtime_loop_spec w rest t)
      as [[(q & Hq & Hm) E] | [Hall (m & E & Hle & Hub & Hatt)]].
    + left. split; [exists q; set_solver | done].
    + right. split.
      { intros q [-> | Hq]%elem_of_cons; [| by apply Hall].
        rewrite missing_mtime_of. congruence. }
      exists m. split; [done|]. split.
      { intros q t' [-> | Hq]%elem_of_cons Hq'; [| by eapply Hub].
        assert (t' = t) by congruence. lia. }
      destruct Hatt as [-> | (q & Hq & Hm)].
      * exists p. split; [set_solver | done].
      * exists q. split; [set_solver | done].
Qed.

(** The outcome of [must_generate] on a non-empty sequence. *)
Lemma must_generate_nonempty w target p rest :
  ∃ b, must_generate target (p :: rest) w = (Ok b, w)
       ∧ (b = true ↔
          missing w target
          ∨ ∃ q, q ∈ p :: rest ∧ (missing w q ∨ newer w q target))
       ∧ ((∃ q, q ∈ p :: rest ∧ missing w q) → b = true).
Proof.
  unfold must_generate.
  destruct (max_mtime_spec w p rest)
    as [[(q & Hq & Hm) E] | [Hall (m & E & Hub & (qm & Hqm & Hm))]].
  - exists true. unfold_M. rewrite E. simpl.
    repeat split; try done. intros _. right. exists q. by eauto.
  - destruct (missing_or_mtime w target) as [Ht | [t Ht]].
    + exists true. unfold_M. rewrite E, (mtime_None _ _ Ht). simpl.
      repeat split; try done. intros _. by left.
    + exists (m >? t). unfold_M. rewrite E, (mtime_Some _ _ _ Ht).
      split; [done|]. split; [split|].
      * intros Hgt. right. exists qm. split; [done|]. right.
        exists m, t. repeat split; try done.
        destruct (Z.gtb_spec m t); [lia | done].
      * intros [Hmiss | (q & Hq & [Hmiss | (tq & tt & Hq1 & Hq2 & Hlt)])].
        -- apply missing_mtime_of in Hmiss. congruence.
        -- by destruct (Hall q Hq).
        -- assert (tt = t) as -> by congruence.
           specialize (Hub q tq Hq Hq1).
           destruct (Z.gtb_spec m t); [done | lia].
      * intros (q & Hq & Hmiss). by destruct (Hall q Hq).
Qed.

(** C1.  For every target and every non-empty sequence of prerequisites,
    [must_generate] returns a boolean and leaves the world (the file system
    included) as it found it.  The boolean is [true] exactly when the
    target is missing, or some prerequisite is missing, or some
    prerequisite has a modification time strictly greater than the
    target's; in particular a missing prerequisite makes it [true]. *)
Theorem must_generate_stale w target p rest :
  ∃ b, must_generate target (p :: rest) w = (Ok b, w)
       ∧ (b = true ↔
          missing w target
          ∨ ∃ q, q ∈ p :: rest ∧ (missing w q ∨ newer w q target))
       ∧ ((∃ q, q ∈ p :: rest ∧ missing w q) → b = true).
Proof. apply must_generate_nonempty. Qed.

(** C10.  With an empty sequence of prerequisites [must_generate] returns
    no boolean: [max] raises [ValueError], which the [OSError] handler lets
    through, whether the target exists or not.  With a non-empty sequence
    it always returns one. *)
Theorem must_generate_empty_prerequisites w target :
  must_generate target [] w = (Raise ValueError, w)
  ∧ ∀ p rest, ∃ b, must_generate target (p :: rest) w = (Ok b, w).
Proof.
  split; [done|]. intros p rest.
  destruct (must_generate_nonempty w target p rest) as (b & Hb & _). eauto.
Qed.

(** ** Removal: [rm_rf] *)

Lemma resolve_nonlink n (f : FS) p :
  (∀ t, f !! p ≠ Some (Link t)) → resolve n f p = Some p.
Proof.
  intros H. destruct n; simpl; destruct (f !! p) as [[]|] eqn:E;
    try done; by destruct (H target).
Qed.

Lemma stat_nonlink (f : FS) p :
  (∀ t, f !! p ≠ Some (Link t)) → stat f p = f !! p.
Proof. intros H. unfold stat. by rewrite resolve_nonlink. Qed.

Ltac simpl_world :=
  cbn [fs denied clock log trace EXTENSION_MODULES set_fs add_log add_event
       tick append_extension] in *.

(** The file system [rm_rf] leaves: an entry that is not a directory is
    deleted, a directory goes with everything below it, and nothing
    changes when the system refuses or the path is missing. *)
Lemma rm_rf_run w path :
  ∃ w', rm_rf path false w = (Ok tt, w')
        ∧ log w' = (log w ++ ["removing " +:+ path])%list
        ∧ denied w' = denied w
        ∧ EXTENSION_MODULES w' = EXTENSION_MODULES w
        ∧ fs w' =
            match fs w !! path with
            | Some (Dir _) =>
                if decide (blocked w path) then fs w
                else filter (fun kv => ¬ under path kv.1) (fs w)
            | Some _ =>
                if decide (path ∈ denied w) then fs w else delete path (fs w)
            | None => fs w
            end.
Proof.
  unfold rm_rf, log_info, os_path_isdir, os_path_islink, shutil_rmtree,
    os_remove, lstat, blocked. unfold_M. simpl_world.
  destruct (fs w !! path) as [[c t | t | t]|] eqn:E;
    rewrite ?stat_nonlink by (rewrite E; congruence);
    repeat (progress (simpl; simpl_world; rewrite ?E, ?andb_false_r)).
  - destruct (decide (path ∈ denied w)); simpl; eauto 10.
  - destruct (decide (set_Exists _ (denied w))); simpl; eauto 10.
  - destruct (decide (path ∈ denied w)); simpl; eauto 10.
  - eauto 10.
Qed.

Lemma lookup_delete_only (f : FS) path :
  delete path f !! path = None ∧ ∀ q, q ≠ path → delete path f !! q = f !! q.
Proof.
  split; [apply lookup_delete_eq|]. intros q Hq. by apply lookup_delete_ne.
Qed.

Lemma lookup_filter_under (f : FS) path :
  (∀ q, under path q → filter (fun kv => ¬ under path kv.1) f !! q = None)
  ∧ ∀ q, ¬ under path q →
         filter (fun kv => ¬ under path kv.1) f !! q = f !! q.
Proof.
  split; intros q Hq.
  - apply map_lookup_filter_None_2. right. intros x _ Hx. by apply Hx.
  - destruct (f !! q) as [x|] eqn:Eq.
    + by apply map_lookup_filter_Some_2.
    + apply map_lookup_filter_None_2. by left.
Qed.

(** C9.  [rm_rf] always returns normally, whatever is at the path and
    whatever the system refuses, and logs the removal.  Unless it is a dry
    run: a symbolic link is removed and every other entry, the one it
    points to included, stays as it was; a directory that is not a link is
    removed with everything below it and nothing outside it changes; a
    plain file is removed alone.  The removal takes place when the system
    allows it; when it does not, and when the path does not exist, the
    [OSError] is swallowed. *)
Theorem rm_rf_best_effort w path dry_run :
  ∃ w', rm_rf path dry_run w = (Ok tt, w')
    ∧ log w' = (log w ++ ["removing " +:+ path])%list
    ∧ (dry_run = false →
       (∀ t, lstat (fs w) path = Some (Link t) → path ∉ denied w →
          fs w' !! path = None ∧ ∀ q, q ≠ path → fs w' !! q = fs w !! q)
       ∧ (∀ t, lstat (fs w) path = Some (Dir t) → ¬ blocked w path →
          (∀ q, under path q → fs w' !! q = None)
          ∧ ∀ q, ¬ under path q → fs w' !! q = fs w !! q)
       ∧ (∀ c t, lstat (fs w) path = Some (File c t) → path ∉ denied w →
          fs w' !! path = None ∧ ∀ q, q ≠ path → fs w' !! q = fs w !! q)
       ∧ (lstat (fs w) path = None → fs w' = fs w)).
Proof.
  destruct dry_run.
  - eexists. split; [done|]. split; [done|]. done.
  - destruct (rm_rf_run w path) as (w' & E & Hlog & _ & _ & Hfs).
    exists w'. split; [done|]. split; [done|]. intros _.
    unfold lstat. rewrite Hfs. split; [|split; [|split]].
    + intros t -> Hd. rewrite decide_False by done. apply lookup_delete_only.
    + intros t -> Hd. rewrite decide_False by done. apply lookup_filter_under.
    + intros c t -> Hd. rewrite decide_False by done. apply lookup_delete_only.
    + by intros ->.
Qed.

(** ** Extension selection *)

Lemma string_app_cons x a b : String x a +:+ b = String x (a +:+ b).
Proof. done. Qed.

Lemma string_app_nil b : "" +:+ b = b.
Proof. done. Qed.

Lemma string_app_assoc a b c : (a +:+ b) +:+ c = a +:+ (b +:+ c).
Proof.
  induction a as [|x a IH]; [done|]. by rewrite !string_app_cons, IH.
Qed.

Lemma string_app_length a b :
  String.length (a +:+ b) = (String.length a + String.length b)%nat.
Proof.
  induction a as [|x a IH]; [done|]. rewrite string_app_cons. simpl.
  by rewrite IH.
Qed.

(** Two strings that are equal have the same suffix of a given length. *)
Lemma string_app_inj_suffix a : ∀ b c d,
  String.length b = String.length d → a +:+ b = c +:+ d → b = d.
Proof.
  induction a as [|x a IH]; intros b [|y c] d Hlen Heq;
    rewrite ?string_app_cons, ?string_app_nil in Heq.
  - done.
  - subst b. simpl in Hlen. rewrite string_app_length in Hlen. lia.
  - subst d. simpl in Hlen. rewrite string_app_length in Hlen. lia.
  - injection Heq as _ Heq. by eapply IH.
Qed.

(** What [posixpath.join] puts in front of a relative component. *)
Definition join_prefix (path : string) : string :=
  if bool_decide (path = "") || ends_with_slash path then path
  else path +:+ "/".

Lemma join2_relative path b :
  starts_with_slash b = false → join2 path b = join_prefix path +:+ b.
Proof.
  intros Hb. unfold join2, join_prefix. rewrite Hb.
  destruct (bool_decide (path = "") || ends_with_slash path); [done|].
  by rewrite string_app_assoc.
Qed.

(** The path of a file of the [libhdfs] directory of the platform version. *)
Definition libhdfs_path (env : Env) (x : string) : string :=
  os_path_join "src/libhdfs" [vstr (HADOOP_VERSION_INFO env); x].

Lemma libhdfs_path_relative env x :
  starts_with_slash x = false →
  libhdfs_path env x
  = join_prefix (join2 "src/libhdfs" (vstr (HADOOP_VERSION_INFO env))) +:+ x.
Proof. intros Hx. unfold libhdfs_path. simpl. by apply join2_relative. Qed.

(** Two different file names give different paths. *)
Lemma libhdfs_path_inj env x y :
  starts_with_slash x = false → starts_with_slash y = false →
  libhdfs_path env x = libhdfs_path env y → x = y.
Proof.
  intros Hx Hy. rewrite !libhdfs_path_relative by done.
  apply String.app_inj.
Qed.

(** A C file of [libhdfs] is none of the C++ files of the module. *)
Lemma libhdfs_path_not_cc env stem cc :
  starts_with_slash (stem +:+ ".c") = false →
  libhdfs_path env (stem +:+ ".c") ≠ cc +:+ "cc".
Proof.
  intros Hs. rewrite libhdfs_path_relative by done.
  rewrite <- string_app_assoc. intros Heq.
  by apply string_app_inj_suffix in Heq.
Qed.

Definition native_core_hdfs_sources : list string :=
  ["src/native_core_hdfs/hdfs_module.cc"; "src/native_core_hdfs/hdfs_file.cc";
   "src/native_core_hdfs/hdfs_fs.cc"].

Lemma libhdfs_path_not_module env stem :
  starts_with_slash (stem +:+ ".c") = false →
  libhdfs_path env (stem +:+ ".c") ∉ native_core_hdfs_sources.
Proof.
  intros Hs. unfold native_core_hdfs_sources.
  rewrite !not_elem_of_cons. repeat split; [| | | apply not_elem_of_nil].
  - apply (libhdfs_path_not_cc env stem "src/native_core_hdfs/hdfs_module.");
      done.
  - apply (libhdfs_path_not_cc env stem "src/native_core_hdfs/hdfs_file.");
      done.
  - apply (libhdfs_path_not_cc env stem "src/native_core_hdfs/hdfs_fs.");
      done.
Qed.

(** The sources of the extension: the selected [libhdfs] files, then the
    files of the module. *)
Lemma hdfs_ext_sources_eq env :
  hdfs_ext_sources env
  = (map (libhdfs_path env) (libhdfs_files env) ++ native_core_hdfs_sources)%list.
Proof. done. Qed.

(** C2.  Extension selection in native mode splits on the major version of
    the platform, and every version falls in exactly one of two cases.
    Major version at most 1: the [libhdfs] sources are exactly [hdfs.c] and
    [hdfsJniHelper.c], the macro defined is [HADOOP_LIBHDFS_V1], none of
    the files of the newer set ([jni_helper.c], [exception.c],
    [native_mini_dfs.c]) is among the sources and [HADOOP_LIBHDFS_V2] is
    not defined.  Major version at least 2: the sources are the newer set,
    with [exception.c] and [native_mini_dfs.c], the macro defined is
    [HADOOP_LIBHDFS_V2], [hdfsJniHelper.c] is not among the sources and
    [HADOOP_LIBHDFS_V1] is not defined. *)
Theorem native_extension_partition env :
  (hadoop_v env ≤ 1
   ∧ libhdfs_files env = ["hdfs.c"; "hdfsJniHelper.c"]
   ∧ ext_sources (native_hdfs_core env)
     = ([libhdfs_path env "hdfs.c"; libhdfs_path env "hdfsJniHelper.c"]
        ++ native_core_hdfs_sources)%list
   ∧ ext_define_macros (native_hdfs_core env)
     = (jvm_get_macros env ++ [("HADOOP_LIBHDFS_V1", Some 1)])%list
   ∧ (∀ x, x ∈ ["jni_helper.c"; "exception.c"; "native_mini_dfs.c"] →
        libhdfs_path env x ∉ ext_sources (native_hdfs_core env))
   ∧ (∀ v, ("HADOOP_LIBHDFS_V2", v) ∉ libhdfs_macros env))
  ∨ (2 ≤ hadoop_v env
     ∧ libhdfs_files env
       = ["hdfs.c"; "jni_helper.c"; "exception.c"; "native_mini_dfs.c"]
     ∧ ext_sources (native_hdfs_core env)
       = ([libhdfs_path env "hdfs.c"; libhdfs_path env "jni_helper.c";
           libhdfs_path env "exception.c";
           libhdfs_path env "native_mini_dfs.c"]
          ++ native_core_hdfs_sources)%list
     ∧ ext_define_macros (native_hdfs_core env)
       = (jvm_get_macros env ++ [("HADOOP_LIBHDFS_V2", Some 1)])%list
     ∧ (libhdfs_path env "hdfsJniHelper.c"
          ∉ ext_sources (native_hdfs_core env))
     ∧ (∀ v, ("HADOOP_LIBHDFS_V1", v) ∉ libhdfs_macros env)).
Proof.
  assert (Hsrc : ext_sources (native_hdfs_core env)
                 = (map (libhdfs_path env) (libhdfs_files env)
                    ++ native_core_hdfs_sources)%list) by done.
  assert (Hmac : ext_define_macros (native_hdfs_core env)
                 = (jvm_get_macros env ++ libhdfs_macros env)%list) by done.
  rewrite Hsrc, Hmac. unfold libhdfs_files, libhdfs_macros.
  destruct (Z.leb_spec (hadoop_v env) 1) as [Hle | Hgt]; [left | right].
  - split; [done|]. split; [done|]. split; [done|]. split; [done|]. split.
    + intros x Hx. rewrite elem_of_app. intros [Hin | Hin].
      * simpl in Hin. rewrite !elem_of_cons, elem_of_nil in Hin.
        rewrite !elem_of_cons, elem_of_nil in Hx.
        destruct Hx as [-> | [-> | [-> | []]]];
          destruct Hin as [Hin | [Hin | []]];
          by apply libhdfs_path_inj in Hin.
      * rewrite !elem_of_cons, elem_of_nil in Hx.
        destruct Hx as [-> | [-> | [-> | []]]].
        -- by apply (libhdfs_path_not_module env "jni_helper") in Hin.
        -- by apply (libhdfs_path_not_module env "exception") in Hin.
        -- by apply (libhdfs_path_not_module env "native_mini_dfs") in Hin.
    + intros v. rewrite list_elem_of_singleton. congruence.
  - split; [lia|]. split; [done|]. split; [done|]. split; [done|]. split.
    + rewrite elem_of_app. intros [Hin | Hin].
      * simpl in Hin. rewrite !elem_of_cons, elem_of_nil in Hin.
        destruct Hin as [Hin | [Hin | [Hin | [Hin | []]]]];
          by apply libhdfs_path_inj in Hin.
      * by apply (libhdfs_path_not_module env "hdfsJniHelper") in Hin.
    + intros v. rewrite list_elem_of_singleton. congruence.
Qed.

(** ** Sample platforms and worlds *)

Definition v121 : HadoopVersion := mkHadoopVersion 1 [2; 1] [1; 2; 1] "1.2.1".
Definition v200 : HadoopVersion := mkHadoopVersion 2 [0; 0] [2; 0; 0] "2.0.0".
Definition v260 : HadoopVersion := mkHadoopVersion 2 [6; 0] [2; 6; 0] "2.6.0".

(** An environment for the platform [v], with the given outcome of
    [git rev-parse HEAD] and exit status of the Java compiler; the archiver
    and the base build succeed, and no external process touches the file
    system. *)
Definition sample_env (v : HadoopVersion) (git : check_output_result)
    (javac_status : Z) : Env :=
  {| JAVA_HOME := "/opt/jdk";
     JVM_LIB_PATH := "/opt/jdk/jre/lib/amd64/server";
     JVM_LIB_NAME := "jvm";
     HADOOP_HOME := Some "/opt/hadoop";
     HADOOP_VERSION_INFO := v;
     jvm_get_include_dirs := ["/opt/jdk/include"];
     jvm_get_libraries := ["jvm"];
     jvm_get_macros := [];
     pydoop_jar_name := fun v => "pydoop_" +:+ vstr v +:+ ".jar";
     pydoop_hadoop_classpath := Some "/opt/hadoop/hadoop-core.jar";
     hdfsimpl_DEFAULT := "native";
     hdfsimpl_NATIVE := "native";
     hdfsimpl_SUPPORTED := ["native"; "jpype-bridged"];
     git_rev_parse_HEAD := git;
     os_system := fun cmd f =>
       (if String.prefix "javac" cmd then javac_status else 0, f);
     build_run := fun _ f => (Ok tt, f) |}.

(** A source tree of the package, before any build. *)
Definition sample_fs : FS :=
  list_to_map
    [("VERSION", File ("1.0.0" +:+ nl) 5);
     ("pydoop", Dir 1);
     ("build", Dir 1);
     ("src", Dir 1);
     ("src/libhdfs", Dir 1);
     ("src/libhdfs/1.2.1", Dir 1);
     ("src/libhdfs/2.6.0", Dir 1);
     ("src/it", Dir 1);
     ("src/it/crs4", Dir 1);
     ("src/it/crs4/pydoop", Dir 1);
     ("src/it/crs4/pydoop/NoSeparatorTextOutputFormat.java", File "" 2);
     ("src/it/crs4/pydoop/pipes", Dir 1);
     ("src/it/crs4/pydoop/pipes/Submitter.java", File "" 2);
     ("src/it/crs4/pydoop/mapreduce", Dir 1);
     ("src/it/crs4/pydoop/mapreduce/pipes", Dir 1);
     ("src/it/crs4/pydoop/mapreduce/pipes/Application.java", File "" 2)].

Definition sample_world : World :=
  {| fs := sample_fs; denied := ∅; clock := 10; log := []; trace := [];
     EXTENSION_MODULES := [] |}.

Definition sample_build (impl : string) : BuildPydoop :=
  {| build_temp := "build/temp.linux-x86_64-2.7";
     build_lib := "build/lib.linux-x86_64-2.7";
     hdfs_core_impl := impl |}.

(** ** The sources of the Java component *)

Definition JavaLib_base_files (f : FS) : list string :=
  "src/it/crs4/pydoop/NoSeparatorTextOutputFormat.java"
  :: glob_list f "src/it/crs4/pydoop/pipes" ".java".

Definition mapreduce_pipes_files (f : FS) : list string :=
  glob_list f "src/it/crs4/pydoop/mapreduce/pipes" ".java".

(** The source list in the words of the specification: the base list, plus
    the [mapreduce/pipes] directory when the major version is at least 2. *)
Definition java_files_by_major (vinfo : HadoopVersion) (f : FS) : list string :=
  (JavaLib_base_files f
   ++ if 2 <=? tuple_0 vinfo then mapreduce_pipes_files f else [])%list.

Lemma JavaLib_init_run env vinfo w :
  JavaLib_init env vinfo w
  = (Ok {| hadoop_vinfo := vinfo;
           jar_name := pydoop_jar_name env vinfo;
           classpath := pydoop_hadoop_classpath env;
           java_files :=
             (JavaLib_base_files (fs w)
              ++ if tuple_ge (main vinfo) [2; 2; 0]
                 then mapreduce_pipes_files (fs w) else [])%list |}, w).
Proof.
  unfold JavaLib_init, glob_star, JavaLib_base_files, mapreduce_pipes_files.
  unfold_M. destruct (tuple_ge (main vinfo) [2; 2; 0]); simpl; [done|].
  by rewrite app_nil_r.
Qed.

(** [(major, minor, patch) >= (2, 2, 0)] for a patch level that is not
    negative. *)
Lemma tuple_ge_2_2_0 major minor patch :
  0 ≤ patch →
  tuple_ge [major; minor; patch] [2; 2; 0]
  = bool_decide (2 < major ∨ (major = 2 ∧ 2 ≤ minor)).
Proof.
  intros Hp. simpl.
  destruct (Z.eqb_spec major 2) as [-> | Hm].
  - destruct (Z.eqb_spec minor 2) as [-> | Hn].
    + destruct (Z.eqb_spec patch 0) as [-> | Hq].
      * symmetry. apply bool_decide_eq_true_2. lia.
      * destruct (Z.gtb_spec patch 0); [|lia].
        symmetry. apply bool_decide_eq_true_2. lia.
    + destruct (Z.gtb_spec minor 2).
      * symmetry. apply bool_decide_eq_true_2. lia.
      * symmetry. apply bool_decide_eq_false_2. lia.
  - destruct (Z.gtb_spec major 2).
    + symmetry. apply bool_decide_eq_true_2. lia.
    + symmetry. apply bool_decide_eq_false_2. lia.
Qed.

(** C3, as stated, fails on Hadoop 2.0.0: the major version is 2, the
    directory [mapreduce/pipes] holds a Java file, and the source list of
    the component leaves it out. *)
Lemma JavaLib_major_version_counterexample :
  2 ≤ tuple_0 v200
  ∧ ∃ jlib,
      JavaLib_init (sample_env v200 ExitNonZero 0) v200 sample_world
      = (Ok jlib, sample_world)
      ∧ java_files jlib = JavaLib_base_files sample_fs
      ∧ java_files jlib ≠ java_files_by_major v200 sample_fs.
Proof.
  split; [done|]. rewrite JavaLib_init_run. eexists. split; [done|].
  split; [done|]. vm_compute. discriminate.
Qed.

(** C3, amended.  The source list of the Java component is the base list
    (the fixed file and the [pipes] directory) plus the [mapreduce/pipes]
    directory, and the latter is included exactly when the main version
    [(major, minor, patch)] of the platform is at least [(2, 2, 0)]: major
    above 2, or major 2 and minor at least 2.  Building the list changes
    nothing. *)
Theorem JavaLib_java_files_gate env vinfo w major minor patch :
  main vinfo = [major; minor; patch] →
  0 ≤ patch →
  ∃ jlib,
    JavaLib_init env vinfo w = (Ok jlib, w)
    ∧ java_files jlib
      = (JavaLib_base_files (fs w)
         ++ if bool_decide (2 < major ∨ (major = 2 ∧ 2 ≤ minor))
            then mapreduce_pipes_files (fs w) else [])%list.
Proof.
  intros Hmain Hpatch. rewrite JavaLib_init_run. eexists. split; [done|].
  simpl. by rewrite Hmain, tuple_ge_2_2_0.
Qed.

Lemma JavaLib_java_files_gate_witness :
  ∃ jlib,
    JavaLib_init (sample_env v260 ExitNonZero 0) v260 sample_world
    = (Ok jlib, sample_world)
    ∧ java_files jlib
      = (JavaLib_base_files (fs sample_world)
         ++ if bool_decide (2 < 2 ∨ (2 = 2 ∧ 2 ≤ 6))
            then mapreduce_pipes_files (fs sample_world) else [])%list.
Proof.
  apply (JavaLib_java_files_gate (sample_env v260 ExitNonZero 0) v260
           sample_world 2 6 0); [reflexivity | lia].
Defined.

(** ** The extension registry *)

(** A computation that leaves [EXTENSION_MODULES] alone, however it ends. *)
Definition keeps_registry {A} (m : M A) : Prop :=
  ∀ w, EXTENSION_MODULES (m w).2 = EXTENSION_MODULES w.

Create HintDb registry.

Lemma keeps_ret {A} (a : A) : keeps_registry (ret a).
Proof. done. Qed.

Lemma keeps_mret {A} (a : A) : keeps_registry (mret a).
Proof. done. Qed.

Lemma keeps_raise {A} (e : exn) : keeps_registry (@raise A e).
Proof. done. Qed.

Lemma keeps_bind {A B} (m : M A) (k : A → M B) :
  keeps_registry m → (∀ a, keeps_registry (k a)) → keeps_registry (m ≫= k).
Proof.
  intros Hm Hk w. unfold_M. specialize (Hm w).
  destruct (m w) as [[a | e] w1]; simpl in *; [|done].
  by rewrite (Hk a w1).
Qed.

Lemma keeps_try_except {A} (body handler : M A) catches :
  keeps_registry body → keeps_registry handler →
  keeps_registry (try_except body catches handler).
Proof.
  intros Hb Hh w. unfold_M. specialize (Hb w).
  destruct (body w) as [[a | e] w1]; simpl in *; [done|].
  destruct (catches e); simpl; [|done]. by rewrite (Hh w1).
Qed.

Lemma keeps_when b (m : M unit) :
  keeps_registry m → keeps_registry (when_ b m).
Proof. intros Hm. destruct b; [done | apply keeps_ret]. Qed.

Lemma keeps_write_file p text : keeps_registry (write_file p text).
Proof.
  intros w. unfold write_file.
  destruct (resolve MAXSYMLINKS (fs w) p) as [q|]; [|done].
  destruct (fs w !! q) as [[]|]; try done.
  - by destruct (decide (q ∈ denied w)).
  - by destruct (parent_ok (fs w) q).
Qed.

Lemma keeps_read_file p : keeps_registry (read_file p).
Proof.
  intros w. unfold read_file. by destruct (stat (fs w) p) as [[]|].
Qed.

Lemma keeps_mtime p : keeps_registry (mtime p).
Proof. intros w. unfold mtime. by destruct (stat (fs w) p). Qed.

Lemma keeps_os_path_exists p : keeps_registry (os_path_exists p).
Proof. done. Qed.

Lemma keeps_check_output env : keeps_registry (subprocess_check_output_git env).
Proof.
  intros w. unfold subprocess_check_output_git.
  by destruct (git_rev_parse_HEAD env).
Qed.

#[local] Hint Resolve keeps_ret keeps_mret keeps_raise keeps_try_except
  keeps_when keeps_write_file keeps_read_file keeps_mtime
  keeps_os_path_exists keeps_check_output : registry.
#[local] Hint Extern 2 (keeps_registry (_ ≫= _)) =>
  apply keeps_bind; [|intros ?] : registry.

Lemma keeps_max_mtime_loop prerequisites :
  ∀ maxitem, keeps_registry (max_mtime_loop maxitem prerequisites).
Proof.
  induction prerequisites as [|p rest IH]; intros maxitem; simpl;
    auto with registry.
Qed.

Lemma keeps_must_generate target prerequisites :
  keeps_registry (must_generate target prerequisites).
Proof.
  unfold must_generate, max_mtime.
  destruct prerequisites; auto 10 using keeps_max_mtime_loop with registry.
Qed.

Lemma keeps_write_config env filename impl :
  keeps_registry (write_config env filename impl).
Proof. unfold write_config. auto 10 with registry. Qed.

Lemma keeps_write_version env filename :
  keeps_registry (write_version env filename).
Proof.
  unfold write_version, get_version_string, get_git_commit.
  auto 12 using keeps_must_generate with registry.
Qed.

Lemma keeps_generate_hdfs_config env :
  keeps_registry (generate_hdfs_config env).
Proof. unfold generate_hdfs_config. auto with registry. Qed.

(** The entries the generation phase registers for an implementation
    mode. *)
Definition registered (env : Env) (self : BuildPydoop) : list Extension :=
  binary_encoder
  :: if bool_decide (hdfs_core_impl self = hdfsimpl_NATIVE env)
     then [native_hdfs_core env] else [].

Lemma registered_NoDup env self : NoDup (registered env self).
Proof.
  unfold registered.
  destruct (bool_decide (hdfs_core_impl self = hdfsimpl_NATIVE env)).
  - apply NoDup_cons. split; [|apply NoDup_singleton].
    rewrite list_elem_of_singleton. intros H.
    by apply (f_equal ext_name) in H.
  - apply NoDup_singleton.
Qed.

(** A run of the generation phase that returns normally has appended the
    entries of the mode. *)
Lemma generation_phase_appends env self w w1 :
  generation_phase env self w = (Ok tt, w1) →
  EXTENSION_MODULES w1 = (EXTENSION_MODULES w ++ registered env self)%list.
Proof.
  unfold generation_phase, registered, build_sercore_extension,
    build_hdfscore_native_impl, EXTENSION_MODULES_append.
  unfold_M.
  pose proof (keeps_write_config env "pydoop/config.py"
                (hdfs_core_impl self) w) as H1.
  destruct (write_config _ _ _ w) as [[[] | e1] wa]; simpl in H1; [|done].
  pose proof (keeps_write_version env "pydoop/version.py" wa) as H2.
  destruct (write_version _ _ wa) as [[[] | e2] wb]; simpl in H2; [|done].
  destruct (bool_decide (hdfs_core_impl self = hdfsimpl_NATIVE env)).
  - pose proof (keeps_generate_hdfs_config env (append_extension binary_encoder wb))
      as H3.
    destruct (generate_hdfs_config env _) as [[[] | e3] wc]; simpl in H3;
      [|done].
    intros [= <-]. simpl. rewrite H3. simpl. rewrite H2, H1.
    by rewrite <- app_assoc.
  - intros [= <-]. simpl. by rewrite H2, H1.
Qed.

(** The sample build in native mode on Hadoop 1.2.1, run once and twice. *)
Definition native_env : Env := sample_env v121 (Output "0a1b2c") 0.
Definition native_once : World :=
  (generation_phase native_env (sample_build "native") sample_world).2.
Definition native_twice : World :=
  (generation_phase native_env (sample_build "native") native_once).2.

(** C4, as stated, fails: on the sample tree, in native mode, both runs of
    the generation phase return normally, the registry after the second
    differs from the registry after the first, and it holds the
    serialization extension twice. *)
Lemma generation_phase_twice_counterexample :
  (generation_phase native_env (sample_build "native") sample_world).1
  = Ok tt
  ∧ (generation_phase native_env (sample_build "native") native_once).1
    = Ok tt
  ∧ EXTENSION_MODULES native_twice ≠ EXTENSION_MODULES native_once
  ∧ ¬ NoDup (EXTENSION_MODULES native_twice).
Proof.
  vm_compute.
  split; [reflexivity|]. split; [reflexivity|]. split; [discriminate|].
  intros Hnd. apply NoDup_cons in Hnd as [Hnotin _]. apply Hnotin.
  apply list_elem_of_further, list_elem_of_here.
Qed.

(** C4, amended.  The generation phase only appends to the registry: a run
    that returns normally adds the entries of the implementation mode (the
    serialization extension, and the native HDFS extension in native mode),
    which are distinct from one another.  So the registry after two
    consecutive runs is the registry after one run followed by the same
    entries once more. *)
Theorem generation_phase_registry env self w w1 w2 :
  generation_phase env self w = (Ok tt, w1) →
  generation_phase env self w1 = (Ok tt, w2) →
  NoDup (registered env self)
  ∧ EXTENSION_MODULES w1 = (EXTENSION_MODULES w ++ registered env self)%list
  ∧ EXTENSION_MODULES w2 = (EXTENSION_MODULES w1 ++ registered env self)%list.
Proof.
  intros H1 H2. split; [apply registered_NoDup|].
  split; by apply generation_phase_appends.
Qed.

Lemma generation_phase_registry_witness :
  NoDup (registered native_env (sample_build "native"))
  ∧ EXTENSION_MODULES native_once
    = (EXTENSION_MODULES sample_world
       ++ registered native_env (sample_build "native"))%list
  ∧ EXTENSION_MODULES native_twice
    = (EXTENSION_MODULES native_once
       ++ registered native_env (sample_build "native"))%list.
Proof.
  apply (generation_phase_registry native_env (sample_build "native")
           sample_world native_once native_twice);
    vm_compute; reflexivity.
Defined.

(** ** The version file and the revision identifier *)

(** When [git] exits with a non-zero status the version file is written
    without a revision. *)
Lemma write_version_git_exit_status :
  let run := write_version (sample_env v121 ExitNonZero 0)
               "pydoop/version.py" sample_world in
  run.1 = Ok tt
  ∧ content (fs run.2) "pydoop/version.py"
    = Some ("# GENERATED BY setup.py" +:+ nl +:+ "version='1.0.0'" +:+ nl).
Proof. vm_compute. split; reflexivity. Qed.

(** C7 at its failing input: [git] cannot be executed.  [check_output]
    raises [OSError], which [get_git_commit] does not catch (it handles
    [CalledProcessError] only), and [write_version] ends with that error
    before it has written the version file. *)
Lemma write_version_git_not_installed :
  let run := write_version (sample_env v121 CannotExecute 0)
               "pydoop/version.py" sample_world in
  (get_git_commit (sample_env v121 CannotExecute 0) sample_world).1
  = Raise OSError
  ∧ run.1 = Raise OSError
  ∧ content (fs run.2) "pydoop/version.py" = None.
Proof. vm_compute. repeat split; reflexivity. Qed.

(** ** The Java stage and the cleanup *)

(** The cleanup of the [finally] clause always runs: whatever the body of
    the Java stage did, the last two calls of the stage are the [sleep] and
    the [rmtree] of the temporary directory. *)
Lemma java_stage_always_cleans env self w :
  ∃ t, trace (java_stage env self w).2
       = (t ++ [EvSleep; EvRmtree (build_temp self)])%list.
Proof.
  unfold java_stage, try_finally.
  destruct ((create_tmp self;; build_java env self) w) as [r w1].
  exists (trace w1).
  unfold time_sleep, clean_up, shutil_rmtree. unfold_M. simpl_world.
  destruct (lstat _ (build_temp self)) as [[]|]; simpl; simpl_world;
    try by rewrite <- app_assoc.
  destruct (decide (blocked _ _)); simpl; by rewrite <- app_assoc.
Qed.

(** When the cleanup returns normally, the stage ends the way its body
    did; when the cleanup raises, its exception is the one that leaves the
    stage. *)
Lemma java_stage_outcome env self w :
  let body := (create_tmp self;; build_java env self) w in
  let fin := (time_sleep;; clean_up self) body.2 in
  (java_stage env self w).1
  = match fin.1 with
    | Ok _ => body.1
    | Raise e => Raise e
    end.
Proof.
  unfold java_stage, try_finally. simpl.
  destruct ((create_tmp self;; build_java env self) w) as [r w1]. simpl.
  by destruct ((time_sleep;; clean_up self) w1) as [[[] | e] w2].
Qed.

(** The sample tree with a temporary build directory left by an earlier
    build that the system does not let the build remove. *)
Definition locked_world : World :=
  {| fs := <["build/temp.linux-x86_64-2.7" := Dir 3]> sample_fs;
     denied := {["build/temp.linux-x86_64-2.7"]};
     clock := 10; log := []; trace := []; EXTENSION_MODULES := [] |}.

(** The sample tree without its [build] directory. *)
Definition no_build_world : World :=
  {| fs := delete "build" sample_fs;
     denied := ∅; clock := 10; log := []; trace := [];
     EXTENSION_MODULES := [] |}.

Definition javac_command_line : string :=
  "javac -classpath /opt/hadoop/hadoop-core.jar"
  +:+ " -d 'build/temp.linux-x86_64-2.7/pipes-1.2.1'"
  +:+ " src/it/crs4/pydoop/NoSeparatorTextOutputFormat.java"
  +:+ " src/it/crs4/pydoop/pipes/Submitter.java".

(** On the sample tree a failing compiler ends the build with the error
    that names the command line, after the cleanup. *)
Lemma run_compile_failure :
  let run := BuildPydoop_run (sample_env v121 (Output "0a1b2c") 1)
               (sample_build "native") sample_world in
  run.1 = Raise (compile_error javac_command_line)
  ∧ trace run.2
    = [EvPrint "hdfs core implementation: native";
       EvCheckOutput ["git"; "rev-parse"; "HEAD"]; EvBaseBuild;
       EvSystem javac_command_line; EvSleep;
       EvRmtree "build/temp.linux-x86_64-2.7"]
  ∧ fs run.2 !! "build/temp.linux-x86_64-2.7" = None.
Proof. vm_compute. repeat split; reflexivity. Qed.

(** C5 at its failing input: the compiler exits with status 1 and the
    temporary directory cannot be removed.  The cleanup runs, its [OSError]
    replaces the build error, and the command line that failed is not
    reported. *)
Lemma run_compile_failure_masked :
  let run := BuildPydoop_run (sample_env v121 (Output "0a1b2c") 1)
               (sample_build "native") locked_world in
  run.1 = Raise OSError
  ∧ trace run.2
    = [EvPrint "hdfs core implementation: native";
       EvCheckOutput ["git"; "rev-parse"; "HEAD"]; EvBaseBuild;
       EvSystem javac_command_line; EvSleep;
       EvRmtree "build/temp.linux-x86_64-2.7"].
Proof. vm_compute. split; reflexivity. Qed.

(** C6 at its failing input: the temporary directory does not exist when
    the cleanup runs.  [clean_up] raises [OSError]; in the pipeline this
    happens when [create_tmp] could not make the directory. *)
Lemma clean_up_missing_workspace :
  let self := sample_build "native" in
  stat sample_fs (build_temp self) = None
  ∧ (clean_up self sample_world).1 = Raise OSError
  ∧ (create_tmp self no_build_world).1 = Raise OSError
  ∧ stat (fs (create_tmp self no_build_world).2) (build_temp self) = None
  ∧ ((time_sleep;; clean_up self) (create_tmp self no_build_world).2).1
    = Raise OSError.
Proof. vm_compute. repeat split; reflexivity. Qed.

(** ** Generated files: running the generation phase twice *)

(** [p] is not a symbolic link. *)
Definition nolink (f : FS) (p : string) : Prop := ∀ t, f !! p ≠ Some (Link t).

(** [open(p, "w")] succeeds on a path that is not a link: an existing file
    the system lets us overwrite, or a new entry of an existing directory. *)
Definition writable (f : FS) (d : gset string) (p : string) : bool :=
  match f !! p with
  | Some (File _ _) => bool_decide (p ∉ d)
  | Some _ => false
  | None => parent_ok f p
  end.

(** The file system after an attempt to write [text] to [p] at time [c]. *)
Definition wr_fs (p text : string) (c : Z) (f : FS) (d : gset string) : FS :=
  if writable f d p then <[p := File text c]> f else f.

(** The world after an attempt to write [text] to [p]. *)
Definition wr (p text : string) (w : World) : World :=
  if writable (fs w) (denied w) p
  then tick (set_fs (<[p := File text (clock w)]> (fs w)) w)
  else w.

Lemma write_file_nolink w p text :
  nolink (fs w) p →
  write_file p text w
  = (if writable (fs w) (denied w) p then Ok tt else Raise IOError,
     wr p text w).
Proof.
  intros Hp. unfold write_file, wr, writable.
  rewrite resolve_nonlink by done.
  destruct (fs w !! p) as [[c t | t | t]|] eqn:E; try done.
  - rewrite decide_bool_decide.
    destruct (bool_decide (p ∈ denied w)) eqn:Ed.
    + rewrite bool_decide_eq_false_2; [done|].
      apply bool_decide_eq_true in Ed. tauto.
    + rewrite bool_decide_eq_true_2; [done|].
      by apply bool_decide_eq_false in Ed.
  - by destruct (parent_ok (fs w) p).
Qed.

Lemma fs_wr p text w :
  fs (wr p text w) = wr_fs p text (clock w) (fs w) (denied w).
Proof. unfold wr, wr_fs. by destruct (writable _ _ p). Qed.

Lemma denied_wr p text w : denied (wr p text w) = denied w.
Proof. unfold wr. by destruct (writable _ _ p). Qed.

Lemma wr_fs_lookup_ne p text c f d q :
  p ≠ q → wr_fs p text c f d !! q = f !! q.
Proof.
  intros Hq. unfold wr_fs. destruct (writable f d p); [|done].
  by rewrite lookup_insert_ne.
Qed.

Lemma wr_fs_lookup_eq p text c f d :
  wr_fs p text c f d !! p
  = if writable f d p then Some (File text c) else f !! p.
Proof.
  unfold wr_fs. destruct (writable f d p); [|done].
  by rewrite lookup_insert_eq.
Qed.

Lemma nolink_wr_fs p text c f d q :
  nolink f q → nolink (wr_fs p text c f d) q.
Proof.
  intros Hq t. destruct (decide (p = q)) as [<- | Hne].
  - rewrite wr_fs_lookup_eq. destruct (writable f d p); [done | apply Hq].
  - rewrite wr_fs_lookup_ne by done. apply Hq.
Qed.

(** Replacing or creating a file where there was no directory and no link
    changes the directories that paths resolve to nowhere. *)
Lemma resolve_insert_file n (f : FS) p text c : ∀ q,
  (∀ t, f !! p ≠ Some (Dir t)) → nolink f p →
  from_option is_dir_node false
    (resolve n (<[p := File text c]> f) q ≫= fun r => <[p := File text c]> f !! r)
  = from_option is_dir_node false (resolve n f q ≫= fun r => f !! r).
Proof.
  intros q Hd Hl. revert q.
  assert (Hp : ∀ k,
    from_option is_dir_node false
      (resolve k (<[p := File text c]> f) p
         ≫= fun r => <[p := File text c]> f !! r)
    = from_option is_dir_node false (resolve k f p ≫= fun r => f !! r)).
  { intros k. rewrite (resolve_nonlink k f p) by done.
    rewrite (resolve_nonlink k (<[p := File text c]> f) p)
      by (intros t; by rewrite lookup_insert_eq).
    simpl. rewrite lookup_insert_eq. simpl.
    destruct (f !! p) as [[c' t' | t' | t']|] eqn:E; simpl; try done.
    by destruct (Hd t'). }
  induction n as [|n IH]; intros q;
    (destruct (decide (p = q)) as [<- | Hne]; [apply Hp|]); simpl;
    rewrite lookup_insert_ne by done;
    destruct (f !! q) as [[c' t' | t' | t']|] eqn:E; simpl;
    rewrite ?lookup_insert_ne by done; rewrite ?E; done.
Qed.

Lemma stat_bind (f : FS) q :
  stat f q = resolve MAXSYMLINKS f q ≫= fun r => f !! r.
Proof. unfold stat. by destruct (resolve MAXSYMLINKS f q). Qed.

Lemma parent_ok_wr_fs p text c f d q :
  nolink f p → parent_ok (wr_fs p text c f d) q = parent_ok f q.
Proof.
  intros Hl. unfold wr_fs, parent_ok.
  destruct (writable f d p) eqn:Hw; [|done].
  destruct (split_last q).1 as [dir|]; [|done].
  rewrite !stat_bind. apply resolve_insert_file; [|done].
  intros t Ht. unfold writable in Hw. by rewrite Ht in Hw.
Qed.

Lemma writable_wr_fs_ne p text c f d q :
  nolink f p → p ≠ q →
  writable (wr_fs p text c f d) d q = writable f d q.
Proof.
  intros Hl Hq. unfold writable.
  rewrite wr_fs_lookup_ne by done. by rewrite parent_ok_wr_fs.
Qed.

Lemma writable_wr_fs_eq p text c f d :
  writable (wr_fs p text c f d) d p
  = writable f d p && bool_decide (p ∉ d).
Proof.
  unfold wr_fs. destruct (writable f d p) eqn:Hw.
  - unfold writable. by rewrite lookup_insert_eq.
  - by rewrite Hw.
Qed.

Lemma content_nolink (f : FS) p :
  nolink f p →
  content f p = match f !! p with Some (File text _) => Some text | _ => None end.
Proof. intros Hp. unfold content. by rewrite stat_nonlink. Qed.

(** The outcome of an attempt to write. *)
Definition written (f : FS) (d : gset string) (p : string) : result unit :=
  if writable f d p then Ok tt else Raise IOError.

Lemma write_config_run env filename impl w :
  nolink (fs w) "DEFAULT_HADOOP_HOME" → nolink (fs w) filename →
  write_config env filename impl w
  = if bool_decide (is_Some (fs w !! "DEFAULT_HADOOP_HOME"))
    then (written (fs w) (denied w) filename,
          wr filename (config_text env impl) w)
    else if writable (fs w) (denied w) "DEFAULT_HADOOP_HOME"
    then
      let w' := wr "DEFAULT_HADOOP_HOME" (fmt_s (HADOOP_HOME env) +:+ nl) w in
      (written (fs w') (denied w') filename,
       wr filename (config_text env impl) w')
    else (Raise IOError, w).
Proof.
  intros HM HC. unfold write_config, os_path_exists. unfold_M.
  rewrite stat_nonlink by done.
  destruct (bool_decide (is_Some (fs w !! "DEFAULT_HADOOP_HOME"))); simpl.
  - by rewrite write_file_nolink.
  - rewrite write_file_nolink by done.
    destruct (writable (fs w) (denied w) "DEFAULT_HADOOP_HOME") eqn:Hw.
    + rewrite write_file_nolink; [done|].
      rewrite fs_wr. by apply nolink_wr_fs.
    + unfold wr. by rewrite Hw.
Qed.

(** What [write_version] decides to do, from the entries of the version
    file and of its target. *)
Inductive plan : Type :=
  | Skip
  | Fail (e : exn)
  | Write (text : string).

Definition version_plan (env : Env) (ver target : option node) : plan :=
  let stale :=
    match ver, target with
    | Some nv, Some nt => node_mtime nv >? node_mtime nt
    | _, _ => true
    end in
  if stale then
    match ver with
    | Some (File text _) =>
        match git_rev_parse_HEAD env with
        | Output out => Write (version_text (strip text) (Some (rstrip_nl out)))
        | ExitNonZero => Write (version_text (strip text) None)
        | CannotExecute => Fail OSError
        end
    | _ => Fail (DistutilsSetupError "failed to read version info")
    end
  else Skip.

(** The world once git has been called. *)
Definition git_called (w : World) : World :=
  add_event (EvCheckOutput ["git"; "rev-parse"; "HEAD"]) w.

(** A plan is carried out after the call of git, except where the module is
    up to date or the version file could not be read: [OSError] is the
    failure of the call itself. *)
Definition perform (p : string) (a : plan) (w : World) : result unit * World :=
  match a with
  | Skip => (Ok tt, w)
  | Fail OSError => (Raise OSError, git_called w)
  | Fail e => (Raise e, w)
  | Write text => (written (fs w) (denied w) p, wr p text (git_called w))
  end.

Lemma write_version_run env filename w :
  nolink (fs w) "VERSION" → nolink (fs w) filename →
  write_version env filename w
  = perform filename
      (version_plan env (fs w !! "VERSION") (fs w !! filename)) w.
Proof.
  intros HV HF.
  unfold write_version, must_generate, max_mtime, max_mtime_loop, mtime,
    get_version_string, read_file, get_git_commit,
    subprocess_check_output_git, version_plan, perform.
  unfold_M. unfold written.
  destruct (fs w !! "VERSION") as [[text tv | tv | tv]|] eqn:EV;
    try (by destruct (HV tv));
    (destruct (fs w !! filename) as [nt|] eqn:EF);
    repeat (first [ rewrite (stat_nonlink (fs w) filename) by done
                  | rewrite (stat_nonlink (fs w) "VERSION") by done
                  | rewrite EV | rewrite EF | progress simpl ]);
    try (destruct (tv >? node_mtime nt); simpl);
    repeat (first [ rewrite (stat_nonlink (fs w) "VERSION") by done
                  | rewrite EV | progress simpl ]);
    try done;
    destruct (git_rev_parse_HEAD env); simpl; try done;
    by rewrite (write_file_nolink (add_event _ w)).
Qed.

(** The header of the native build. *)
Definition config_fn (env : Env) : string :=
  os_path_join "src" ["libhdfs"; vstr (HADOOP_VERSION_INFO env); "config.h"].

Definition config_h_text : string :=
  "#ifndef CONFIG_H" +:+ nl +:+ "#define CONFIG_H" +:+ nl +:+ "#endif" +:+ nl.

Lemma generate_hdfs_config_run env w :
  nolink (fs w) (config_fn env) →
  generate_hdfs_config env w
  = (written (fs w) (denied w) (config_fn env),
     wr (config_fn env) config_h_text w).
Proof.
  intros HH. unfold generate_hdfs_config. by rewrite write_file_nolink.
Qed.

(** The header is none of the other generated files, nor the version
    file: its name ends with an [h]. *)
Lemma config_fn_ends env : ∃ pre, config_fn env = pre +:+ "h".
Proof.
  unfold config_fn. simpl.
  rewrite (join2_relative _ "config.h") by done.
  exists (join_prefix
            (join2 (join2 "src" "libhdfs") (vstr (HADOOP_VERSION_INFO env)))
          +:+ "config.").
  by rewrite string_app_assoc.
Qed.

Lemma config_fn_ne env pre c :
  c ≠ "h"%char → config_fn env ≠ pre +:+ String c "".
Proof.
  intros Hc Heq. destruct (config_fn_ends env) as [pre' E].
  rewrite E in Heq. apply string_app_inj_suffix in Heq; [|done]. congruence.
Qed.

(** *** The part of the world the generation phase depends on *)

(** The entries of the marker file, of the two generated modules, of the
    version file and of the header, with what decides whether each can be
    written (its directory exists, the system refuses), and the clock. *)
Record view : Type := mkView {
  vM : option node; vC : option node; vVER : option node;
  vV : option node; vH : option node;
  pM : bool; pC : bool; pV : bool; pH : bool;
  dM : bool; dC : bool; dV : bool; dH : bool;
  vclock : Z
}.

Definition view_of (env : Env) (w : World) : view :=
  {| vM := fs w !! "DEFAULT_HADOOP_HOME";
     vC := fs w !! "pydoop/config.py";
     vVER := fs w !! "VERSION";
     vV := fs w !! "pydoop/version.py";
     vH := fs w !! config_fn env;
     pM := parent_ok (fs w) "DEFAULT_HADOOP_HOME";
     pC := parent_ok (fs w) "pydoop/config.py";
     pV := parent_ok (fs w) "pydoop/version.py";
     pH := parent_ok (fs w) (config_fn env);
     dM := bool_decide ("DEFAULT_HADOOP_HOME" ∈ denied w);
     dC := bool_decide ("pydoop/config.py" ∈ denied w);
     dV := bool_decide ("pydoop/version.py" ∈ denied w);
     dH := bool_decide (config_fn env ∈ denied w);
     vclock := clock w |}.

Definition can_write (n : option node) (parent refused : bool) : bool :=
  match n with
  | Some (File _ _) => negb refused
  | Some _ => false
  | None => parent
  end.

Definition set_M (text : string) (v : view) : view :=
  mkView (Some (File text (vclock v))) (vC v) (vVER v) (vV v) (vH v)
    (pM v) (pC v) (pV v) (pH v) (dM v) (dC v) (dV v) (dH v) (vclock v + 1).

Definition set_C (text : string) (v : view) : view :=
  mkView (vM v) (Some (File text (vclock v))) (vVER v) (vV v) (vH v)
    (pM v) (pC v) (pV v) (pH v) (dM v) (dC v) (dV v) (dH v) (vclock v + 1).

Definition set_V (text : string) (v : view) : view :=
  mkView (vM v) (vC v) (vVER v) (Some (File text (vclock v))) (vH v)
    (pM v) (pC v) (pV v) (pH v) (dM v) (dC v) (dV v) (dH v) (vclock v + 1).

Definition set_H (text : string) (v : view) : view :=
  mkView (vM v) (vC v) (vVER v) (vV v) (Some (File text (vclock v)))
    (pM v) (pC v) (pV v) (pH v) (dM v) (dC v) (dV v) (dH v) (vclock v + 1).

Definition exists_node (n : option node) : bool :=
  match n with Some _ => true | None => false end.

(** [write_config], [write_version] and [generate_hdfs_config] on a view:
    whether the call returns normally, and the view it leaves. *)
Definition config_view (env : Env) (impl : string) (v : view) : bool * view :=
  let after_marker (v : view) :=
    if can_write (vC v) (pC v) (dC v)
    then (true, set_C (config_text env impl) v)
    else (false, v) in
  if exists_node (vM v) then after_marker v
  else if can_write (vM v) (pM v) (dM v)
  then after_marker (set_M (fmt_s (HADOOP_HOME env) +:+ nl) v)
  else (false, v).

Definition version_view (env : Env) (v : view) : bool * view :=
  match version_plan env (vVER v) (vV v) with
  | Skip => (true, v)
  | Fail _ => (false, v)
  | Write text =>
      if can_write (vV v) (pV v) (dV v) then (true, set_V text v)
      else (false, v)
  end.

Definition header_view (v : view) : bool * view :=
  if can_write (vH v) (pH v) (dH v) then (true, set_H config_h_text v)
  else (false, v).

(** The generation phase on a view: the view it ends in. *)
Definition phase_view (env : Env) (self : BuildPydoop) (v : view) : view :=
  let r1 := config_view env (hdfs_core_impl self) v in
  if r1.1 then
    let r2 := version_view env r1.2 in
    if r2.1 then
      if bool_decide (hdfs_core_impl self = hdfsimpl_NATIVE env)
      then (header_view r2.2).2 else r2.2
    else r2.2
  else r1.2.

(** The same in one pass, each step applied to the view the previous one
    left. *)
Definition phase_after_version (env : Env) (self : BuildPydoop) (v : view)
    : view :=
  if bool_decide (hdfs_core_impl self = hdfsimpl_NATIVE env)
  then if can_write (vH v) (pH v) (dH v) then set_H config_h_text v else v
  else v.

Definition phase_after_config (env : Env) (self : BuildPydoop) (v : view)
    : view :=
  match version_plan env (vVER v) (vV v) with
  | Skip => phase_after_version env self v
  | Fail _ => v
  | Write text =>
      if can_write (vV v) (pV v) (dV v)
      then phase_after_version env self (set_V text v)
      else v
  end.

Definition phase_after_marker (env : Env) (self : BuildPydoop) (v : view)
    : view :=
  if can_write (vC v) (pC v) (dC v)
  then phase_after_config env self
         (set_C (config_text env (hdfs_core_impl self)) v)
  else v.

Definition phase_steps (env : Env) (self : BuildPydoop) (v : view) : view :=
  if exists_node (vM v) then phase_after_marker env self v
  else if can_write (vM v) (pM v) (dM v)
  then phase_after_marker env self (set_M (fmt_s (HADOOP_HOME env) +:+ nl) v)
  else v.

Definition node_text (n : option node) : option string :=
  match n with
  | Some (File text _) => Some text
  | _ => None
  end.

Lemma version_plan_text env ver t1 t2 a b :
  version_plan env ver t1 = Write a → version_plan env ver t2 = Write b →
  a = b.
Proof.
  unfold version_plan.
  destruct ver as [[text tv | tv | tv]|]; repeat case_match; congruence.
Qed.

(** On views, a second run of the phase changes the text of none of the
    three generated files. *)
Ltac view_simpl :=
  cbn [vM vC vVER vV vH pM pC pV pH dM dC dV dH vclock negb node_text
       can_write exists_node set_M set_C set_V set_H fst snd].

Ltac view_cases :=
  repeat (view_simpl;
          repeat match goal with
                 | H : ?b = _ |- context [?b] => rewrite H
                 end;
          try case_match).

Lemma phase_view_steps env self v :
  phase_view env self v = phase_steps env self v.
Proof.
  unfold phase_view, config_view, version_view, header_view, phase_steps,
    phase_after_marker, phase_after_config, phase_after_version.
  cbv zeta. view_cases; done.
Qed.

Lemma phase_view_twice env self v :
  let v1 := phase_view env self v in
  let v2 := phase_view env self v1 in
  node_text (vM v2) = node_text (vM v1)
  ∧ node_text (vC v2) = node_text (vC v1)
  ∧ node_text (vV v2) = node_text (vV v1).
Proof.
  cbv zeta. rewrite !phase_view_steps.
  set (G := fun v1 : view =>
    node_text (vM (phase_steps env self v1)) = node_text (vM v1)
    ∧ node_text (vC (phase_steps env self v1)) = node_text (vC v1)
    ∧ node_text (vV (phase_steps env self v1)) = node_text (vV v1)).
  change (G (phase_steps env self v)).
  unfold phase_steps, phase_after_marker, phase_after_config,
    phase_after_version.
  view_cases; unfold G;
    unfold phase_steps, phase_after_marker, phase_after_config,
      phase_after_version;
    view_cases; repeat split; try done;
    f_equal; eapply version_plan_text; eassumption.
Qed.

(** *** The phase on worlds and on views *)

(** The paths the generation phase reads or writes. *)
Definition phase_paths (env : Env) : list string :=
  ["DEFAULT_HADOOP_HOME"; "pydoop/config.py"; "VERSION"; "pydoop/version.py";
   config_fn env].

(** None of them is a symbolic link. *)
Definition phase_nolinks (env : Env) (w : World) : Prop :=
  ∀ p, p ∈ phase_paths env → nolink (fs w) p.

Definition is_ok {A} (r : result A) : bool :=
  match r with Ok _ => true | Raise _ => false end.

Lemma writable_can_write (f : FS) d p :
  writable f d p = can_write (f !! p) (parent_ok f p) (bool_decide (p ∈ d)).
Proof.
  unfold writable, can_write.
  destruct (f !! p) as [[]|]; try done. apply bool_decide_not.
Qed.

Lemma exists_node_is_Some (n : option node) :
  bool_decide (is_Some n) = exists_node n.
Proof.
  by destruct n.
Qed.

Lemma clock_wr p text w :
  clock (wr p text w)
  = if writable (fs w) (denied w) p then clock w + 1 else clock w.
Proof. unfold wr. by destruct (writable _ _ p). Qed.

Lemma phase_nolinks_wr env p text w :
  phase_nolinks env w → phase_nolinks env (wr p text w).
Proof.
  intros H q Hq. rewrite fs_wr. apply nolink_wr_fs. by apply H.
Qed.

Lemma phase_nolinks_append env e w :
  phase_nolinks env w → phase_nolinks env (append_extension e w).
Proof. done. Qed.

Section Views.

Variable env : Env.
Variable w : World.
Hypothesis Hnl : phase_nolinks env w.

Lemma config_fn_other :
  config_fn env ≠ "DEFAULT_HADOOP_HOME" ∧ config_fn env ≠ "pydoop/config.py"
  ∧ config_fn env ≠ "VERSION" ∧ config_fn env ≠ "pydoop/version.py".
Proof.
  repeat split.
  - by apply (config_fn_ne env "DEFAULT_HADOOP_HOM" "E").
  - by apply (config_fn_ne env "pydoop/config.p" "y").
  - by apply (config_fn_ne env "VERSIO" "N").
  - by apply (config_fn_ne env "pydoop/version.p" "y").
Qed.

Lemma phase_nolink_each :
  nolink (fs w) "DEFAULT_HADOOP_HOME" ∧ nolink (fs w) "pydoop/config.py"
  ∧ nolink (fs w) "VERSION" ∧ nolink (fs w) "pydoop/version.py"
  ∧ nolink (fs w) (config_fn env).
Proof. repeat split; apply Hnl; unfold phase_paths; set_solver. Qed.

(** An attempted write seen on the view. *)
Ltac view_wr :=
  destruct config_fn_other as (N1 & N2 & N3 & N4);
  destruct phase_nolink_each as (HM & HC & HVER & HV & HH);
  unfold view_of;
  rewrite fs_wr, denied_wr, clock_wr, !parent_ok_wr_fs by done;
  rewrite wr_fs_lookup_eq, !wr_fs_lookup_ne by done;
  rewrite writable_can_write;
  by destruct (can_write _ _ _).

Lemma view_wr_M text :
  view_of env (wr "DEFAULT_HADOOP_HOME" text w)
  = let v := view_of env w in
    if can_write (vM v) (pM v) (dM v) then set_M text v else v.
Proof. view_wr. Qed.

Lemma view_wr_C text :
  view_of env (wr "pydoop/config.py" text w)
  = let v := view_of env w in
    if can_write (vC v) (pC v) (dC v) then set_C text v else v.
Proof. view_wr. Qed.

Lemma view_wr_V text :
  view_of env (wr "pydoop/version.py" text w)
  = let v := view_of env w in
    if can_write (vV v) (pV v) (dV v) then set_V text v else v.
Proof. view_wr. Qed.

Lemma view_wr_H text :
  view_of env (wr (config_fn env) text w)
  = let v := view_of env w in
    if can_write (vH v) (pH v) (dH v) then set_H text v else v.
Proof. view_wr. Qed.

End Views.

Lemma is_ok_written (f : FS) d p :
  is_ok (written f d p)
  = can_write (f !! p) (parent_ok f p) (bool_decide (p ∈ d)).
Proof.
  unfold written. rewrite writable_can_write. by destruct (can_write _ _ _).
Qed.

(** [write_config] on the view. *)
Lemma write_config_view env impl w :
  phase_nolinks env w →
  let res := write_config env "pydoop/config.py" impl w in
  let rv := config_view env impl (view_of env w) in
  is_ok res.1 = rv.1 ∧ view_of env res.2 = rv.2 ∧ phase_nolinks env res.2.
Proof.
  intros Hnl.
  destruct (phase_nolink_each env w Hnl) as (HM & HC & HVER & HV & HH).
  cbv zeta. rewrite write_config_run by done. unfold config_view.
  rewrite exists_node_is_Some.
  change (vM (view_of env w)) with (fs w !! "DEFAULT_HADOOP_HOME").
  destruct (exists_node (fs w !! "DEFAULT_HADOOP_HOME")).
  - cbn [fst snd]. rewrite is_ok_written, view_wr_C by done. cbv zeta.
    split; [|split; [|by apply phase_nolinks_wr]];
      cbn [view_of vC pC dC vV pV dV vH pH dH]; by case_match.
  - rewrite writable_can_write.
    change (can_write (vM (view_of env w)) (pM (view_of env w))
              (dM (view_of env w)))
      with (can_write (fs w !! "DEFAULT_HADOOP_HOME")
              (parent_ok (fs w) "DEFAULT_HADOOP_HOME")
              (bool_decide ("DEFAULT_HADOOP_HOME" ∈ denied w))).
    destruct (can_write (fs w !! "DEFAULT_HADOOP_HOME") _ _) eqn:EM;
      [|done].
    cbv zeta. cbn [fst snd].
    assert (Hnl' : phase_nolinks env
              (wr "DEFAULT_HADOOP_HOME" (fmt_s (HADOOP_HOME env) +:+ nl) w))
      by (by apply phase_nolinks_wr).
    assert (Hv : view_of env
              (wr "DEFAULT_HADOOP_HOME" (fmt_s (HADOOP_HOME env) +:+ nl) w)
            = set_M (fmt_s (HADOOP_HOME env) +:+ nl) (view_of env w)).
    { rewrite view_wr_M by done. cbv zeta.
      change (can_write (vM (view_of env w)) (pM (view_of env w))
                (dM (view_of env w)))
        with (can_write (fs w !! "DEFAULT_HADOOP_HOME")
                (parent_ok (fs w) "DEFAULT_HADOOP_HOME")
                (bool_decide ("DEFAULT_HADOOP_HOME" ∈ denied w))).
      by rewrite EM. }
    rewrite is_ok_written, view_wr_C by done. cbv zeta.
    change (can_write (fs ?w' !! "pydoop/config.py") _ _)
      with (can_write (vC (view_of env w')) (pC (view_of env w'))
              (dC (view_of env w'))).
    rewrite Hv.
    split; [|split; [|by apply phase_nolinks_wr]];
      cbn [view_of vC pC dC vV pV dV vH pH dH]; by case_match.
Qed.

(** [write_version] on the view. *)
Lemma write_version_view env w :
  phase_nolinks env w →
  let res := write_version env "pydoop/version.py" w in
  let rv := version_view env (view_of env w) in
  is_ok res.1 = rv.1 ∧ view_of env res.2 = rv.2 ∧ phase_nolinks env res.2.
Proof.
  intros Hnl.
  destruct (phase_nolink_each env w Hnl) as (HM & HC & HVER & HV & HH).
  cbv zeta. rewrite write_version_run by done. unfold version_view.
  change (vVER (view_of env w)) with (fs w !! "VERSION").
  change (vV (view_of env w)) with (fs w !! "pydoop/version.py").
  destruct (version_plan env _ _) as [|e|text]; [done | by destruct e |].
  cbn [perform fst snd].
  rewrite is_ok_written, (view_wr_V env (git_called w)) by exact Hnl.
  change (view_of env (git_called w)) with (view_of env w). cbv zeta.
  split; [|split; [|by apply (phase_nolinks_wr env _ _ (git_called w))]];
    cbn [view_of vC pC dC vV pV dV vH pH dH]; by case_match.
Qed.

(** [generate_hdfs_config] on the view. *)
Lemma generate_hdfs_config_view env w :
  phase_nolinks env w →
  let res := generate_hdfs_config env w in
  let rv := header_view (view_of env w) in
  is_ok res.1 = rv.1 ∧ view_of env res.2 = rv.2 ∧ phase_nolinks env res.2.
Proof.
  intros Hnl.
  destruct (phase_nolink_each env w Hnl) as (HM & HC & HVER & HV & HH).
  cbv zeta. rewrite generate_hdfs_config_run by done. unfold header_view.
  cbn [fst snd]. rewrite is_ok_written, view_wr_H by done. cbv zeta.
  split; [|split; [|by apply phase_nolinks_wr]];
    cbn [view_of vC pC dC vV pV dV vH pH dH]; by case_match.
Qed.

(** The generation phase on the view: it ends in the view [phase_view]
    computes, and it creates no link. *)
Lemma generation_phase_view env self w :
  phase_nolinks env w →
  view_of env (generation_phase env self w).2
  = phase_view env self (view_of env w)
  ∧ phase_nolinks env (generation_phase env self w).2.
Proof.
  intros Hnl.
  unfold generation_phase, phase_view, build_sercore_extension,
    build_hdfscore_native_impl, EXTENSION_MODULES_append.
  unfold_M. cbv zeta.
  destruct (write_config_view env (hdfs_core_impl self) w Hnl)
    as (A1 & A2 & A3).
  destruct (write_config env "pydoop/config.py" (hdfs_core_impl self) w)
    as [r1 w1].
  destruct (config_view env (hdfs_core_impl self) (view_of env w))
    as [ok1 v1].
  cbn [fst snd] in *. subst ok1 v1.
  destruct r1 as [[] | e1]; cbn [is_ok fst snd]; [|done].
  destruct (write_version_view env w1 A3) as (B1 & B2 & B3).
  destruct (write_version env "pydoop/version.py" w1) as [r2 w2].
  destruct (version_view env (view_of env w1)) as [ok2 v2].
  cbn [fst snd] in *. subst ok2 v2.
  destruct r2 as [[] | e2]; cbn [is_ok fst snd]; [|done].
  destruct (bool_decide (hdfs_core_impl self = hdfsimpl_NATIVE env));
    [|done].
  destruct (generate_hdfs_config_view env (append_extension binary_encoder w2))
    as (C1 & C2 & C3); [done|].
  destruct (generate_hdfs_config env (append_extension binary_encoder w2))
    as [r3 w3].
  cbn [fst snd] in *.
  change (view_of env (append_extension binary_encoder w2))
    with (view_of env w2) in C2.
  by destruct r3 as [[] | e3].
Qed.


Lemma sample_world_nolinks : phase_nolinks native_env sample_world.
Proof.
  intros p Hp t. unfold phase_paths in Hp.
  rewrite !elem_of_cons, elem_of_nil in Hp.
  destruct Hp as [-> | [-> | [-> | [-> | [-> | []]]]]];
    vm_compute; discriminate.
Qed.


(** The sample tree where [pydoop/version.py] is a symbolic link to
    [pydoop/config.py] and the version file carries a time stamp that lies
    between the two runs: later than the first run's write of the
    configuration, not later than the second's. *)
Definition aliased_world : World :=
  {| fs := <["pydoop/version.py" := Link "pydoop/config.py"]>
             (<["VERSION" := File ("1.0.0" +:+ nl) 12]> sample_fs);
     denied := ∅; clock := 10; log := []; trace := [];
     EXTENSION_MODULES := [] |}.

Definition aliased_once : World :=
  (generation_phase native_env (sample_build "native") aliased_world).2.

Definition aliased_twice : World :=
  (generation_phase native_env (sample_build "native") aliased_once).2.


(** * Further properties of the script *)

(** ** Compiling and packaging the Java component *)

(** The directory of the compiled classes, the archive and the command line
    of the archiver, as [__build_java_lib] computes them. *)
Definition class_dir_of (self : JavaBuilder) (jlib : JavaLib) : string :=
  os_path_join (jb_build_temp self) ["pipes-" +:+ vstr (hadoop_vinfo jlib)].

Definition package_path_of (self : JavaBuilder) (jlib : JavaLib) : string :=
  os_path_join (jb_build_lib self) ["pydoop"; jar_name jlib].

Definition jar_command (self : JavaBuilder) (jlib : JavaLib) : string :=
  "jar -cf " +:+ package_path_of self jlib +:+ " -C "
  +:+ class_dir_of self jlib +:+ " ./it".

(** The class directory is there, or [os.mkdir] can make it: nothing is at
    its path and its parent is a directory. *)
Definition class_dir_ready (f : FS) (p : string) : bool :=
  if bool_decide (is_Some (stat f p)) then true
  else
    match lstat f p with
    | Some _ => false
    | None => parent_ok f p
    end.

(** The file system the compiler is started on: the class directory has
    been made where it was missing. *)
Definition with_class_dir (p : string) (w : World) : FS :=
  if bool_decide (is_Some (stat (fs w) p)) then fs w
  else <[p := Dir (clock w)]> (fs w).

(** The outcome of [__build_java_lib].  When the class directory is missing
    and cannot be made, it raises the [OSError] of [os.mkdir] and no
    process is started.  Otherwise the compiler runs on the file system
    with the class directory, and the archiver after it, on what the
    compiler left, when the compiler exits with status 0. *)
Lemma build_java_lib_cases env self jlib w :
  let cd := class_dir_of self jlib in
  let javac := javac_command cd jlib in
  let jar := jar_command self jlib in
  if class_dir_ready (fs w) cd then
    let (s1, f2) := os_system env javac (with_class_dir cd w) in
    if negb (s1 =? 0) then
      ∃ w', build_java_lib env self jlib w = (Raise (compile_error javac), w')
            ∧ trace w' = (trace w ++ [EvSystem javac])%list
            ∧ fs w' = f2
    else
      let (s2, f3) := os_system env jar f2 in
      ∃ w', build_java_lib env self jlib w
            = (if negb (s2 =? 0) then Raise (package_error jar) else Ok tt,
               w')
            ∧ trace w' = (trace w ++ [EvSystem javac; EvSystem jar])%list
            ∧ fs w' = f3
  else
    ∃ w', build_java_lib env self jlib w = (Raise OSError, w')
          ∧ trace w' = trace w
          ∧ fs w' = fs w.
Proof.
  cbv zeta. unfold build_java_lib, class_dir_ready, with_class_dir.
  fold (class_dir_of self jlib). fold (package_path_of self jlib).
  fold (jar_command self jlib).
  set (javac := javac_command (class_dir_of self jlib) jlib).
  set (jar := jar_command self jlib).
  unfold log_info, log_warn, os_path_exists, os_mkdir, os_system_call, lstat.
  unfold_M. simpl_world.
  destruct (negb (truthy (classpath jlib))); simpl; simpl_world;
    (destruct (bool_decide (is_Some (stat (fs w) (class_dir_of self jlib))));
     simpl; simpl_world;
     [| destruct (fs w !! class_dir_of self jlib);
        [eexists; repeat split; reflexivity|];
        destruct (parent_ok (fs w) (class_dir_of self jlib));
        [| eexists; repeat split; reflexivity]; simpl; simpl_world ]);
    (destruct (os_system env javac _) as [s1 f2]; simpl; simpl_world;
     destruct (negb (s1 =? 0)); simpl;
     [ eexists; repeat split; reflexivity
     | destruct (os_system env jar f2) as [s2 f3]; simpl;
       destruct (negb (s2 =? 0)); simpl;
       eexists; (split; [reflexivity|]); simpl;
       (split; [|reflexivity]); rewrite <- app_assoc; reflexivity ]).
Qed.

(** A class directory that is missing and cannot be made ends
    [__build_java_lib] with the [OSError] of [os.mkdir]: no process is
    started and the file system is as it was. *)
Lemma build_java_lib_no_class_dir env self jlib w :
  class_dir_ready (fs w) (class_dir_of self jlib) = false →
  ∃ w', build_java_lib env self jlib w = (Raise OSError, w')
        ∧ trace w' = trace w
        ∧ fs w' = fs w.
Proof.
  intros Hcd. pose proof (build_java_lib_cases env self jlib w) as H.
  cbv zeta in H. by rewrite Hcd in H.
Qed.

(** X1.  When the class directory exists or can be made and the Java
    compiler, started on the file system with that directory, exits with a
    non-zero status, [__build_java_lib] raises the error that carries the
    exact command line it ran; the compiler is the only process started,
    the archiver is never run, and the file system is the one the compiler
    left. *)
Theorem build_java_lib_compile_failure env self jlib w :
  let cd := class_dir_of self jlib in
  let javac := javac_command cd jlib in
  class_dir_ready (fs w) cd = true →
  (os_system env javac (with_class_dir cd w)).1 ≠ 0 →
  ∃ w',
    build_java_lib env self jlib w = (Raise (compile_error javac), w')
    ∧ trace w' = (trace w ++ [EvSystem javac])%list
    ∧ fs w' = (os_system env javac (with_class_dir cd w)).2.
Proof.
  cbv zeta. intros Hcd Hjavac.
  pose proof (build_java_lib_cases env self jlib w) as H.
  cbv zeta in H. rewrite Hcd in H.
  destruct (os_system env _ (with_class_dir _ w)) as [s1 f2].
  simpl in Hjavac.
  destruct (Z.eqb_spec s1 0) as [-> | _]; [done|]. exact H.
Qed.

(** X2.  When the class directory exists or can be made, the compiler
    exits with status 0 and the archiver, started on the file system the
    compiler left, exits with a non-zero status, [__build_java_lib] raises
    the error that carries the exact command line of the archiver, after
    running the compiler and the archiver, in that order; the file system
    is the one the archiver left. *)
Theorem build_java_lib_package_failure env self jlib w :
  let cd := class_dir_of self jlib in
  let javac := javac_command cd jlib in
  let jar := jar_command self jlib in
  let compiled := os_system env javac (with_class_dir cd w) in
  class_dir_ready (fs w) cd = true →
  compiled.1 = 0 →
  (os_system env jar compiled.2).1 ≠ 0 →
  ∃ w',
    build_java_lib env self jlib w = (Raise (package_error jar), w')
    ∧ trace w' = (trace w ++ [EvSystem javac; EvSystem jar])%list
    ∧ fs w' = (os_system env jar compiled.2).2.
Proof.
  cbv zeta. intros Hcd Hjavac Hjar.
  pose proof (build_java_lib_cases env self jlib w) as H.
  cbv zeta in H. rewrite Hcd in H.
  destruct (os_system env _ (with_class_dir _ w)) as [s1 f2].
  simpl in Hjavac, Hjar |- *. subst s1. simpl in H.
  destruct (os_system env _ f2) as [s2 f3]. simpl in Hjar |- *.
  destruct (Z.eqb_spec s2 0) as [-> | _]; [done|]. exact H.
Qed.

(** X3.  When the class directory exists or can be made and both processes
    exit with status 0, [__build_java_lib] returns normally, having run
    the compiler on the file system with the class directory and then the
    archiver on what the compiler left, and nothing else; the file system
    is the one the archiver left. *)
Theorem build_java_lib_success env self jlib w :
  let cd := class_dir_of self jlib in
  let javac := javac_command cd jlib in
  let jar := jar_command self jlib in
  let compiled := os_system env javac (with_class_dir cd w) in
  class_dir_ready (fs w) cd = true →
  compiled.1 = 0 →
  (os_system env jar compiled.2).1 = 0 →
  ∃ w',
    build_java_lib env self jlib w = (Ok tt, w')
    ∧ trace w' = (trace w ++ [EvSystem javac; EvSystem jar])%list
    ∧ fs w' = (os_system env jar compiled.2).2.
Proof.
  cbv zeta. intros Hcd Hjavac Hjar.
  pose proof (build_java_lib_cases env self jlib w) as H.
  cbv zeta in H. rewrite Hcd in H.
  destruct (os_system env _ (with_class_dir _ w)) as [s1 f2].
  simpl in Hjavac, Hjar |- *. subst s1. simpl in H.
  destruct (os_system env _ f2) as [s2 f3]. simpl in Hjar |- *. subst s2.
  exact H.
Qed.

(** A Java library and its builder on the sample tree. *)
Definition sample_jlib : JavaLib :=
  {| hadoop_vinfo := v121;
     jar_name := "pydoop_1.2.1.jar";
     classpath := Some "/opt/hadoop/hadoop-core.jar";
     java_files := ["src/it/crs4/pydoop/NoSeparatorTextOutputFormat.java"] |}.

Definition sample_builder : JavaBuilder :=
  {| jb_build_temp := "build";
     jb_build_lib := "build";
     java_libs := [sample_jlib] |}.

(** A compiler that leaves a class file in the class directory and an
    archiver that leaves the archive, when they exit with status 0. *)
Definition sample_tools (javac_status jar_status : Z) (cmd : string) (f : FS)
    : Z * FS :=
  if String.prefix "jar" cmd then
    (jar_status,
     if jar_status =? 0
     then <["build/pydoop/pydoop_1.2.1.jar" := File "PK" 20]> f
     else f)
  else
    (javac_status,
     if javac_status =? 0
     then <["build/pipes-1.2.1/NoSeparatorTextOutputFormat.class" :=
              File "cafebabe" 20]> f
     else f).

(** The sample environment with these tools. *)
Definition tools_env (javac_status jar_status : Z) : Env :=
  {| JAVA_HOME := "/opt/jdk";
     JVM_LIB_PATH := "/opt/jdk/jre/lib/amd64/server";
     JVM_LIB_NAME := "jvm";
     HADOOP_HOME := Some "/opt/hadoop";
     HADOOP_VERSION_INFO := v121;
     jvm_get_include_dirs := ["/opt/jdk/include"];
     jvm_get_libraries := ["jvm"];
     jvm_get_macros := [];
     pydoop_jar_name := fun v => "pydoop_" +:+ vstr v +:+ ".jar";
     pydoop_hadoop_classpath := Some "/opt/hadoop/hadoop-core.jar";
     hdfsimpl_DEFAULT := "native";
     hdfsimpl_NATIVE := "native";
     hdfsimpl_SUPPORTED := ["native"; "jpype-bridged"];
     git_rev_parse_HEAD := Output "0a1b2c";
     os_system := sample_tools javac_status jar_status;
     build_run := fun _ f => (Ok tt, f) |}.

Definition sample_javac : string :=
  "javac -classpath /opt/hadoop/hadoop-core.jar -d 'build/pipes-1.2.1'"
  +:+ " src/it/crs4/pydoop/NoSeparatorTextOutputFormat.java".

Definition sample_jar : string :=
  "jar -cf build/pydoop/pydoop_1.2.1.jar -C build/pipes-1.2.1 ./it".

(** On the sample tree the class directory is missing and can be made. *)
Lemma sample_class_dir :
  stat sample_fs "build/pipes-1.2.1" = None
  ∧ class_dir_ready sample_fs "build/pipes-1.2.1" = true.
Proof. vm_compute. split; reflexivity. Qed.

Lemma build_java_lib_compile_failure_witness :
  ∃ w',
    build_java_lib (tools_env 1 0) sample_builder sample_jlib sample_world
    = (Raise (compile_error sample_javac), w')
    ∧ trace w' = [EvSystem sample_javac]
    ∧ fs w' = <["build/pipes-1.2.1" := Dir 10]> sample_fs.
Proof.
  apply (build_java_lib_compile_failure (tools_env 1 0) sample_builder
           sample_jlib sample_world).
  - vm_compute. reflexivity.
  - vm_compute. discriminate.
Defined.

Lemma build_java_lib_package_failure_witness :
  ∃ w',
    build_java_lib (tools_env 0 2) sample_builder sample_jlib sample_world
    = (Raise (package_error sample_jar), w')
    ∧ trace w' = [EvSystem sample_javac; EvSystem sample_jar]
    ∧ fs w'
      = <["build/pipes-1.2.1/NoSeparatorTextOutputFormat.class" :=
            File "cafebabe" 20]>
          (<["build/pipes-1.2.1" := Dir 10]> sample_fs).
Proof.
  apply (build_java_lib_package_failure (tools_env 0 2) sample_builder
           sample_jlib sample_world).
  - vm_compute. reflexivity.
  - vm_compute. reflexivity.
  - vm_compute. discriminate.
Defined.

Lemma build_java_lib_success_witness :
  ∃ w',
    build_java_lib (tools_env 0 0) sample_builder sample_jlib sample_world
    = (Ok tt, w')
    ∧ trace w' = [EvSystem sample_javac; EvSystem sample_jar]
    ∧ fs w'
      = <["build/pydoop/pydoop_1.2.1.jar" := File "PK" 20]>
          (<["build/pipes-1.2.1/NoSeparatorTextOutputFormat.class" :=
               File "cafebabe" 20]>
             (<["build/pipes-1.2.1" := Dir 10]> sample_fs)).
Proof.
  apply (build_java_lib_success (tools_env 0 0) sample_builder sample_jlib
           sample_world).
  - vm_compute. reflexivity.
  - vm_compute. reflexivity.
  - vm_compute. reflexivity.
Defined.

(** ** What the generating functions leave alone *)

(** A computation that makes no outside call (no [os.system], no
    [subprocess.check_output], no base build, no [sleep], no [rmtree], no
    [print]): it leaves the trace as it found it, however it ends. *)
Definition keeps_trace {A} (m : M A) : Prop :=
  ∀ w, trace (m w).2 = trace w.

Create HintDb quiet.

Lemma quiet_ret {A} (a : A) : keeps_trace (ret a).
Proof. done. Qed.

Lemma quiet_mret {A} (a : A) : keeps_trace (mret a).
Proof. done. Qed.

Lemma quiet_raise {A} (e : exn) : keeps_trace (@raise A e).
Proof. done. Qed.

Lemma quiet_bind {A B} (m : M A) (k : A → M B) :
  keeps_trace m → (∀ a, keeps_trace (k a)) → keeps_trace (m ≫= k).
Proof.
  intros Hm Hk w. unfold_M. specialize (Hm w).
  destruct (m w) as [[a | e] w1]; simpl in *; [|done].
  by rewrite (Hk a w1).
Qed.

Lemma quiet_try_except {A} (body handler : M A) catches :
  keeps_trace body → keeps_trace handler →
  keeps_trace (try_except body catches handler).
Proof.
  intros Hb Hh w. unfold_M. specialize (Hb w).
  destruct (body w) as [[a | e] w1]; simpl in *; [done|].
  destruct (catches e); simpl; [|done]. by rewrite (Hh w1).
Qed.

Lemma quiet_when b (m : M unit) : keeps_trace m → keeps_trace (when_ b m).
Proof. intros Hm. destruct b; [done | apply quiet_ret]. Qed.

Lemma quiet_write_file p text : keeps_trace (write_file p text).
Proof.
  intros w. unfold write_file.
  destruct (resolve MAXSYMLINKS (fs w) p) as [q|]; [|done].
  destruct (fs w !! q) as [[]|]; try done.
  - by destruct (decide (q ∈ denied w)).
  - by destruct (parent_ok (fs w) q).
Qed.

Lemma quiet_read_file p : keeps_trace (read_file p).
Proof. intros w. unfold read_file. by destruct (stat (fs w) p) as [[]|]. Qed.

Lemma quiet_mtime p : keeps_trace (mtime p).
Proof. intros w. unfold mtime. by destruct (stat (fs w) p). Qed.

Lemma quiet_os_path_exists p : keeps_trace (os_path_exists p).
Proof. done. Qed.

Lemma quiet_os_mkdir p : keeps_trace (os_mkdir p).
Proof.
  intros w. unfold os_mkdir. destruct (lstat (fs w) p); [done|].
  by destruct (parent_ok (fs w) p).
Qed.

Lemma quiet_append e : keeps_trace (EXTENSION_MODULES_append e).
Proof. done. Qed.

#[local] Hint Resolve quiet_ret quiet_mret quiet_raise quiet_try_except
  quiet_when quiet_write_file quiet_read_file quiet_mtime
  quiet_os_path_exists quiet_os_mkdir quiet_append : quiet.
#[local] Hint Extern 2 (keeps_trace (_ ≫= _)) =>
  apply quiet_bind; [|intros ?] : quiet.

Lemma quiet_max_mtime_loop prerequisites :
  ∀ maxitem, keeps_trace (max_mtime_loop maxitem prerequisites).
Proof.
  induction prerequisites as [|p rest IH]; intros maxitem; simpl;
    auto with quiet.
Qed.

Lemma quiet_must_generate target prerequisites :
  keeps_trace (must_generate target prerequisites).
Proof.
  unfold must_generate, max_mtime.
  destruct prerequisites; auto 10 using quiet_max_mtime_loop with quiet.
Qed.

Lemma quiet_write_config env filename impl :
  keeps_trace (write_config env filename impl).
Proof. unfold write_config. auto 10 with quiet. Qed.

Lemma quiet_get_version_string filename :
  keeps_trace (get_version_string filename).
Proof. unfold get_version_string. auto 10 with quiet. Qed.

Lemma quiet_generate_hdfs_config env :
  keeps_trace (generate_hdfs_config env).
Proof. unfold generate_hdfs_config. auto with quiet. Qed.

Lemma quiet_build_hdfscore_native_impl env :
  keeps_trace (build_hdfscore_native_impl env).
Proof.
  unfold build_hdfscore_native_impl.
  auto 10 using quiet_generate_hdfs_config with quiet.
Qed.

(** The call of git, as the trace records it. *)
Definition git_event : event := EvCheckOutput ["git"; "rev-parse"; "HEAD"].

(** [get_git_commit] calls git once, whatever it returns. *)
Lemma trace_get_git_commit env w :
  trace (get_git_commit env w).2 = (trace w ++ [git_event])%list.
Proof.
  unfold get_git_commit, subprocess_check_output_git. unfold_M.
  by destruct (git_rev_parse_HEAD env).
Qed.

(** [write_version] calls git at most once and makes no other outside
    call. *)
Lemma trace_write_version env filename w :
  ∃ g, (g = [] ∨ g = [git_event])
       ∧ trace (write_version env filename w).2 = (trace w ++ g)%list.
Proof.
  unfold write_version. unfold_M.
  pose proof (quiet_must_generate filename ["VERSION"] w) as H1.
  destruct (must_generate filename ["VERSION"] w) as [[[] | e1] w1];
    simpl in *; try (exists []; rewrite app_nil_r; by auto).
  pose proof (quiet_get_version_string "VERSION" w1) as H2.
  destruct (get_version_string "VERSION" w1) as [[version | e2] w2];
    simpl in *; [|exists []; rewrite app_nil_r; split; [auto | congruence]].
  pose proof (trace_get_git_commit env w2) as H3.
  destruct (get_git_commit env w2) as [[rev | e3] w3]; simpl in *;
    exists [git_event]; (split; [by right|]);
    rewrite ?quiet_write_file; by rewrite H3, H2, H1.
Qed.

(** The generation phase calls git at most once and makes no other outside
    call. *)
Lemma trace_generation_phase env self w :
  ∃ g, (g = [] ∨ g = [git_event])
       ∧ trace (generation_phase env self w).2 = (trace w ++ g)%list.
Proof.
  unfold generation_phase. unfold_M.
  pose proof (quiet_write_config env "pydoop/config.py" (hdfs_core_impl self) w)
    as H1.
  destruct (write_config env "pydoop/config.py" (hdfs_core_impl self) w)
    as [[[] | e1] w1]; simpl in *;
    [|exists []; rewrite app_nil_r; by auto].
  destruct (trace_write_version env "pydoop/version.py" w1)
    as (g & Hg & H2).
  exists g. split; [done|]. rewrite H1 in H2.
  destruct (write_version env "pydoop/version.py" w1) as [[[] | e2] w2];
    simpl in *; [|done].
  rewrite <- H2.
  apply (quiet_when _ _ (quiet_build_hdfscore_native_impl env)
           (append_extension binary_encoder w2)).
Qed.

Lemma quiet_create_tmp self : keeps_trace (create_tmp self).
Proof. unfold create_tmp. auto 12 with quiet. Qed.

(** ** The pipeline as a whole *)

(** [BuildPydoop.run] by stages: the generation phase, the base build, the
    Java stage with its cleanup, the closing log line. *)
Lemma run_stages env self w :
  BuildPydoop_run env self w
  = (print ("hdfs core implementation: " +:+ hdfs_core_impl self);;
     (generation_phase env self;;
      (build_run_call env;;
       (java_stage env self;; log_info "Build finished")))) w.
Proof.
  unfold BuildPydoop_run, generation_phase, java_stage.
  unfold mbind, M_bind, bind. simpl.
  destruct (write_config _ _ _ _) as [[[] | e1] w1]; [|done].
  destruct (write_version _ _ _) as [[[] | e2] w2]; [|done].
  destruct (build_sercore_extension w2) as [[[] | e3] w3]; [|done].
  by destruct (when_ (bool_decide (hdfs_core_impl self = hdfsimpl_NATIVE env))
                (build_hdfscore_native_impl env) w3) as [[[] | e4] w4].
Qed.

Lemma under_self p : under p p = true.
Proof. unfold under. by rewrite bool_decide_eq_true_2. Qed.

(** A Java stage that returns normally has removed the temporary
    directory. *)
Lemma java_stage_removes env self w w' :
  java_stage env self w = (Ok tt, w') → fs w' !! build_temp self = None.
Proof.
  unfold java_stage, try_finally.
  destruct ((create_tmp self;; build_java env self) w) as [r w1].
  unfold time_sleep, clean_up, shutil_rmtree, lstat. unfold_M. simpl_world.
  destruct (fs w1 !! build_temp self) as [[c t | t | t]|]; try done.
  destruct (decide (blocked _ _)); [done|]. intros [= -> <-]. simpl_world.
  apply lookup_filter_under. by rewrite under_self.
Qed.


(** ** The build directories *)

(** A new entry where there was none breaks no path that resolved. *)
Lemma resolve_insert_fresh n (f : FS) k x :
  f !! k = None →
  ∀ p q, resolve n f p = Some q → is_Some (f !! q) →
         resolve n (<[k := x]> f) p = Some q.
Proof.
  intros Hk. induction n as [|n IH]; intros p q; simpl;
    (destruct (decide (k = p)) as [<- | Hne];
     [ rewrite Hk; intros [= <-] [y Hy]; congruence
     | rewrite lookup_insert_ne by done;
       destruct (f !! p) as [[c t | t | t]|]; try done ]).
  apply IH.
Qed.

Lemma stat_insert_fresh (f : FS) k x p :
  f !! k = None → is_Some (stat f p) → is_Some (stat (<[k := x]> f) p).
Proof.
  intros Hk [n Hn]. unfold stat in *.
  destruct (resolve MAXSYMLINKS f p) as [q|] eqn:E; [|done].
  rewrite (resolve_insert_fresh _ f k x Hk p q E) by eauto.
  exists n. rewrite lookup_insert_ne; [done|]. intros <-. congruence.
Qed.

(** [os.mkdir] either raises [OSError] and changes nothing, or adds the
    directory, which exists from then on, and keeps what existed. *)
Lemma os_mkdir_cases p w :
  os_mkdir p w = (Raise OSError, w)
  ∨ ∃ w', os_mkdir p w = (Ok tt, w')
          ∧ is_Some (stat (fs w') p)
          ∧ fs w ⊆ fs w'
          ∧ ∀ q, is_Some (stat (fs w) q) → is_Some (stat (fs w') q).
Proof.
  unfold os_mkdir, lstat. destruct (fs w !! p) eqn:E; [by left|].
  destruct (parent_ok (fs w) p); [|by left].
  right. eexists. split; [done|]. simpl_world. split; [|split].
  - rewrite stat_nonlink by (intros t; by rewrite lookup_insert_eq).
    rewrite lookup_insert_eq. eauto.
  - by apply insert_subseteq.
  - intros q. by apply stat_insert_fresh.
Qed.

(** X5.  When [create_tmp] returns normally both build directories exist
    (as [os.path.exists] sees them) and every entry that was there still
    is; the only exception it raises is the [OSError] of [os.mkdir].  It
    starts no process. *)
Theorem create_tmp_outcome self w :
  let res := create_tmp self w in
  match res.1 with
  | Ok _ =>
      is_Some (stat (fs res.2) (build_temp self))
      ∧ is_Some (stat (fs res.2) (build_lib self))
      ∧ fs w ⊆ fs res.2
  | Raise e => e = OSError
  end
  ∧ trace res.2 = trace w.
Proof.
  cbv zeta. split; [|apply quiet_create_tmp].
  unfold create_tmp, os_path_exists. unfold_M.
  destruct (bool_decide (is_Some (stat (fs w) (build_temp self)))) eqn:E1;
    simpl.
  - apply bool_decide_eq_true in E1.
    destruct (bool_decide (is_Some (stat (fs w) (build_lib self)))) eqn:E2;
      simpl.
    + apply bool_decide_eq_true in E2. done.
    + destruct (os_mkdir_cases (build_lib self) w)
        as [-> | (w' & -> & H1 & H2 & H3)]; simpl; [done|]. auto.
  - destruct (os_mkdir_cases (build_temp self) w)
      as [-> | (w1 & -> & H1 & H2 & H3)]; simpl; [done|].
    destruct (bool_decide (is_Some (stat (fs w1) (build_lib self)))) eqn:E2;
      simpl.
    + apply bool_decide_eq_true in E2. done.
    + destruct (os_mkdir_cases (build_lib self) w1)
        as [-> | (w2 & -> & G1 & G2 & G3)]; simpl; [done|].
      split; [auto|]. split; [done|]. by etrans.
Qed.

(** ** Registering the native extension *)

(** Where a chain of links ends there is no link. *)
Lemma resolve_end_nolink n (f : FS) :
  ∀ p q, resolve n f p = Some q → nolink f q.
Proof.
  induction n as [|n IH]; intros p q; simpl;
    destruct (f !! p) as [[c t | t | t]|] eqn:E; try done;
    try (intros [= <-] t'; by rewrite E).
  apply IH.
Qed.

(** A file or a directory put where a chain of links ends leaves the chain
    as it was. *)
Lemma resolve_insert_end n (f : FS) q x :
  (∀ t, x ≠ Link t) →
  ∀ p, resolve n f p = Some q → resolve n (<[q := x]> f) p = Some q.
Proof.
  intros Hx. induction n as [|n IH]; intros p H; simpl in *;
    (destruct (decide (p = q)) as [-> | Hne];
     [ rewrite lookup_insert_eq; destruct x as [| | t]; try done;
       by destruct (Hx t)
     | rewrite lookup_insert_ne by done;
       destruct (f !! p) as [[c t | t | t]|]; try done; try congruence ]).
  by apply IH.
Qed.

(** [open(p, "w")] succeeds: the path leads, through its links, to a file
    the system lets us overwrite or to a new entry of an existing
    directory. *)
Definition can_open (w : World) (p : string) : bool :=
  match resolve MAXSYMLINKS (fs w) p with
  | Some q => writable (fs w) (denied w) q
  | None => false
  end.

(** [write_file] writes the text, which the path holds from then on, or
    raises [IOError] and changes nothing. *)
Lemma write_file_open p text w :
  if can_open w p then
    ∃ w', write_file p text w = (Ok tt, w')
          ∧ content (fs w') p = Some text
          ∧ EXTENSION_MODULES w' = EXTENSION_MODULES w
  else write_file p text w = (Raise IOError, w).
Proof.
  unfold can_open, write_file, writable.
  destruct (resolve MAXSYMLINKS (fs w) p) as [q|] eqn:E; [|done].
  assert (Hc : ∀ c, content (<[q := File text c]> (fs w)) p = Some text).
  { intros c. unfold content, stat.
    rewrite (resolve_insert_end _ (fs w) q (File text c)) by done.
    by rewrite lookup_insert_eq. }
  destruct (fs w !! q) as [[c t | t | t]|]; try done.
  - rewrite decide_bool_decide.
    destruct (bool_decide (q ∈ denied w)) eqn:Ed.
    + rewrite bool_decide_eq_false_2; [done|].
      apply bool_decide_eq_true in Ed. tauto.
    + rewrite bool_decide_eq_true_2 by (by apply bool_decide_eq_false in Ed).
      eexists. split; [done|]. split; [apply Hc | done].
  - destruct (parent_ok (fs w) q); [|done].
    eexists. split; [done|]. split; [apply Hc | done].
Qed.

(** X6.  [build_hdfscore_native_impl] registers the native extension only
    once the header is written.  When [config.h] can be opened for
    writing, it returns normally, the header then holds the include guard
    ([#ifndef CONFIG_H], [#define CONFIG_H], [#endif]) and the registry has
    grown by exactly the native extension, at its end.  When the header
    cannot be opened for writing it raises [IOError] and leaves the
    registry, and the world, untouched. *)
Theorem build_hdfscore_native_impl_outcome env w :
  let res := build_hdfscore_native_impl env w in
  if can_open w (config_fn env) then
    res.1 = Ok tt
    ∧ content (fs res.2) (config_fn env) = Some config_h_text
    ∧ EXTENSION_MODULES res.2
      = (EXTENSION_MODULES w ++ [native_hdfs_core env])%list
  else res = (Raise IOError, w).
Proof.
  cbv zeta.
  unfold build_hdfscore_native_impl, generate_hdfs_config,
    EXTENSION_MODULES_append.
  unfold_M.
  pose proof (write_file_open (config_fn env) config_h_text w) as H.
  destruct (can_open w (config_fn env)).
  - destruct H as (w' & E & Hc & Hr).
    change (write_file _ _ w) with (write_file (config_fn env) config_h_text w).
    rewrite E. simpl. by rewrite Hr.
  - change (write_file _ _ w) with (write_file (config_fn env) config_h_text w).
    by rewrite H.
Qed.

(** On the sample tree the header of the native build is written and the
    extension registered; where the system refuses to overwrite the header
    the build stops with [IOError] and registers nothing. *)
Definition header_1_2_1 : string := "src/libhdfs/1.2.1/config.h".

Definition refused_header_world : World :=
  {| fs := <[header_1_2_1 := File "" 3]> sample_fs;
     denied := {[header_1_2_1]};
     clock := 10; log := []; trace := []; EXTENSION_MODULES := [] |}.

Lemma build_hdfscore_native_impl_sample :
  let done_ := build_hdfscore_native_impl native_env sample_world in
  let refused := build_hdfscore_native_impl native_env refused_header_world in
  config_fn native_env = header_1_2_1
  ∧ done_.1 = Ok tt
  ∧ content (fs done_.2) header_1_2_1 = Some config_h_text
  ∧ EXTENSION_MODULES done_.2 = [native_hdfs_core native_env]
  ∧ refused.1 = Raise IOError
  ∧ content (fs refused.2) header_1_2_1 = Some ""
  ∧ EXTENSION_MODULES refused.2 = [].
Proof. vm_compute. repeat split; reflexivity. Qed.

(** ** The version file when it is up to date *)

(** [write_version] on a target that is up to date. *)
Lemma write_version_up_to_date env filename w :
  ¬ missing w filename →
  ¬ missing w "VERSION" →
  ¬ newer w "VERSION" filename →
  write_version env filename w = (Ok tt, w).
Proof.
  intros Ht Hv Hn. unfold write_version.
  destruct (must_generate_nonempty w filename "VERSION" [])
    as (b & E & Hiff & _).
  unfold_M. rewrite E. destruct b; [|done].
  destruct Hiff as [Hstale _].
  destruct (Hstale eq_refl) as [? | (q & Hq & [? | ?])]; try done;
    apply list_elem_of_singleton in Hq; by subst.
Qed.

(** X7.  When the target of [write_version] exists and the version file
    exists and is not newer than it, [write_version] does nothing: it
    returns normally and leaves the world as it was (no file is read or
    written and [git] is not consulted). *)
Theorem write_version_fresh env filename w :
  ¬ missing w filename →
  ¬ missing w "VERSION" →
  ¬ newer w "VERSION" filename →
  write_version env filename w = (Ok tt, w).
Proof. apply write_version_up_to_date. Qed.

(** The sample tree after a build: the version file is there, written
    after the version declaration. *)
Definition built_world : World :=
  {| fs := <["pydoop/version.py" :=
               File ("# GENERATED BY setup.py" +:+ nl
                     +:+ "version='1.0.0'" +:+ nl) 7]> sample_fs;
     denied := ∅; clock := 10; log := []; trace := [];
     EXTENSION_MODULES := [] |}.

Lemma write_version_fresh_witness :
  write_version native_env "pydoop/version.py" built_world
  = (Ok tt, built_world).
Proof.
  apply (write_version_fresh native_env "pydoop/version.py" built_world).
  - unfold missing. vm_compute. discriminate.
  - unfold missing. vm_compute. discriminate.
  - intros (tp & tt & H1 & H2 & Hlt). vm_compute in H1, H2.
    injection H1 as <-. injection H2 as <-. lia.
Defined.

(** ** What the generated files hold, and what is left alone *)

Lemma fs_wr_other p text w q :
  p ≠ q → fs (wr p text w) !! q = fs w !! q.
Proof. intros. rewrite fs_wr. by apply wr_fs_lookup_ne. Qed.

Lemma fs_wr_written p text w :
  writable (fs w) (denied w) p = true →
  fs (wr p text w) !! p = Some (File text (clock w)).
Proof. intros H. by rewrite fs_wr, wr_fs_lookup_eq, H. Qed.

Lemma wr_refused p text w :
  writable (fs w) (denied w) p = false → wr p text w = w.
Proof. intros H. unfold wr. by rewrite H. Qed.

(** The revision [get_git_commit] returns for an outcome of [git]. *)
Definition revision_of (git : check_output_result) : option (option string) :=
  match git with
  | Output out => Some (Some (rstrip_nl out))
  | ExitNonZero => Some None
  | CannotExecute => None
  end.

(** X8.  [write_version], on a target and a version file that are not
    symbolic links, changes no entry but its target; and when it changes
    the target, it has returned normally and the target is a file that
    holds the header line and [version='V R'], where [V] is the content of
    the version file without surrounding white space and [R] the revision
    in brackets (nothing when [git] exited with a non-zero status). *)
Theorem write_version_effect env filename w :
  nolink (fs w) "VERSION" →
  nolink (fs w) filename →
  let res := write_version env filename w in
  (∀ q, q ≠ filename → fs res.2 !! q = fs w !! q)
  ∧ (fs res.2 !! filename = fs w !! filename
     ∨ ∃ text tv rev,
         fs w !! "VERSION" = Some (File text tv)
         ∧ revision_of (git_rev_parse_HEAD env) = Some rev
         ∧ res.1 = Ok tt
         ∧ fs res.2 !! filename
           = Some (File (version_text (strip text) rev) (clock w))).
Proof.
  intros HV HF. cbv zeta. rewrite write_version_run by done.
  unfold version_plan.
  destruct (fs w !! "VERSION") as [[text tv | tv | tv]|] eqn:EV;
    try (by destruct (HV tv));
    repeat case_match; simpl; try (split; [done | by left]);
    unfold written;
    (destruct (writable (fs w) (denied w) filename) eqn:Ew;
     [| rewrite (wr_refused _ _ (git_called w)) by done;
        split; [done | by left]]);
    (split; [intros q Hq; by apply (fs_wr_other _ _ (git_called w))|]);
    right; eexists text, tv, _;
    (split; [done|]); (split; [done|]); (split; [done|]);
    by apply (fs_wr_written _ _ (git_called w)).
Qed.

Lemma write_version_effect_witness :
  let res := write_version native_env "pydoop/version.py" sample_world in
  (∀ q, q ≠ "pydoop/version.py" → fs res.2 !! q = fs sample_world !! q)
  ∧ (fs res.2 !! "pydoop/version.py" = fs sample_world !! "pydoop/version.py"
     ∨ ∃ text tv rev,
         fs sample_world !! "VERSION" = Some (File text tv)
         ∧ revision_of (git_rev_parse_HEAD native_env) = Some rev
         ∧ res.1 = Ok tt
         ∧ fs res.2 !! "pydoop/version.py"
           = Some (File (version_text (strip text) rev) (clock sample_world))).
Proof.
  apply (write_version_effect native_env "pydoop/version.py" sample_world);
    intros t; vm_compute; discriminate.
Defined.

(** X9.  [write_config], on a marker file and a target that are two
    different paths, neither a symbolic link: changes no entry besides
    these two; never touches a marker file that exists; raises nothing but
    [IOError]; and when it returns normally the marker file exists and the
    target is a file that holds the header line, the Hadoop home and the
    implementation mode. *)
Theorem write_config_effect env filename impl w :
  nolink (fs w) "DEFAULT_HADOOP_HOME" →
  nolink (fs w) filename →
  filename ≠ "DEFAULT_HADOOP_HOME" →
  let res := write_config env filename impl w in
  (∀ q, q ≠ filename → q ≠ "DEFAULT_HADOOP_HOME" →
        fs res.2 !! q = fs w !! q)
  ∧ (is_Some (fs w !! "DEFAULT_HADOOP_HOME") →
     fs res.2 !! "DEFAULT_HADOOP_HOME" = fs w !! "DEFAULT_HADOOP_HOME")
  ∧ match res.1 with
    | Ok _ =>
        is_Some (fs res.2 !! "DEFAULT_HADOOP_HOME")
        ∧ ∃ t, fs res.2 !! filename = Some (File (config_text env impl) t)
    | Raise e => e = IOError
    end.
Proof.
  intros HM HF Hne. cbv zeta. rewrite write_config_run by done.
  destruct (bool_decide (is_Some (fs w !! "DEFAULT_HADOOP_HOME"))) eqn:EM.
  - apply bool_decide_eq_true in EM. cbn [fst snd]. unfold written.
    split; [intros q Hq _; by apply fs_wr_other|].
    split; [intros _; by apply fs_wr_other|].
    destruct (writable (fs w) (denied w) filename) eqn:Ew; [|done].
    split; [by rewrite fs_wr_other|]. eexists. by apply fs_wr_written.
  - apply bool_decide_eq_false in EM.
    destruct (writable (fs w) (denied w) "DEFAULT_HADOOP_HOME") eqn:EwM;
      [|by cbn [fst snd]].
    cbv zeta. cbn [fst snd]. unfold written.
    split; [intros q Hq HqM; by rewrite !fs_wr_other|].
    split; [done|].
    destruct (writable (fs (wr "DEFAULT_HADOOP_HOME" _ w)) _ filename) eqn:Ew;
      [|done].
    split.
    + rewrite fs_wr_other by done. rewrite fs_wr_written by done. eauto.
    + eexists. by apply fs_wr_written.
Qed.

Lemma write_config_effect_witness :
  let res := write_config native_env "pydoop/config.py" "native"
               sample_world in
  (∀ q, q ≠ "pydoop/config.py" → q ≠ "DEFAULT_HADOOP_HOME" →
        fs res.2 !! q = fs sample_world !! q)
  ∧ (is_Some (fs sample_world !! "DEFAULT_HADOOP_HOME") →
     fs res.2 !! "DEFAULT_HADOOP_HOME"
     = fs sample_world !! "DEFAULT_HADOOP_HOME")
  ∧ match res.1 with
    | Ok _ =>
        is_Some (fs res.2 !! "DEFAULT_HADOOP_HOME")
        ∧ ∃ t, fs res.2 !! "pydoop/config.py"
               = Some (File (config_text native_env "native") t)
    | Raise e => e = IOError
    end.
Proof.
  apply (write_config_effect native_env "pydoop/config.py" "native"
           sample_world);
    [intros t; vm_compute; discriminate
    | intros t; vm_compute; discriminate | done].
Defined.

(** ** The [clean] command *)

(** [glob.iglob(p)] for a pattern without wildcard: the path itself when
    something is there ([os.path.lexists]). *)
Definition glob_plain (f : FS) (p : string) : list string :=
  if bool_decide (is_Some (lstat f p)) then [p] else [].

(** The list of paths [Clean.run] builds before it removes anything. *)
Definition Clean_garbage_list (f : FS) : list string :=
  (["DEFAULT_HADOOP_HOME"; "pydoop/config.py"; "pydoop/version.py"]
   ++ glob_plain f "build"
   ++ glob_list f "src" ".patched"
   ++ filter (fun p => from_option is_link_node false (lstat f p) = true)
        (glob_list f "src" "" ++ glob_list f "patches" ""))%list.

(** A computation that starts by looking at the file system. *)
Definition with_fs {A} (k : FS → M A) : M A := fun w => k (fs w) w.

(** [Clean.run]; [clean_run] is the base command [clean.run(self)]. *)
Definition Clean_run (clean_run : M unit) (dry_run : bool) : M unit :=
  clean_run;;
  with_fs (fun f => Clean_remove (Clean_garbage_list f) dry_run).

(** The system lets [rm_rf] remove what is at [p]: a directory with no
    refused entry in it, or another entry that is not refused. *)
Definition removable (w : World) (p : string) : Prop :=
  match fs w !! p with
  | Some (Dir _) => ¬ blocked w p
  | _ => p ∉ denied w
  end.

Lemma removable_mono w w1 p :
  fs w1 ⊆ fs w → denied w1 = denied w → removable w p →
  removable w1 p ∨ fs w1 !! p = None.
Proof.
  intros Hsub Hden Hr. destruct (fs w1 !! p) as [n|] eqn:E; [left | by right].
  pose proof (lookup_weaken _ _ _ _ E Hsub) as E'.
  unfold removable in *. rewrite E. rewrite E' in Hr.
  destruct n; rewrite ?Hden; try done.
  intros (q & Hq & Hu & [y Hy]). apply Hr. exists q.
  rewrite Hden in Hq. split; [done|]. split; [done|].
  exists y. by eapply lookup_weaken.
Qed.

(** One call of [rm_rf]. *)
Lemma rm_rf_step p dry w :
  ∃ w', rm_rf p dry w = (Ok tt, w')
        ∧ log w' = (log w ++ ["removing " +:+ p])%list
        ∧ denied w' = denied w
        ∧ fs w' ⊆ fs w
        ∧ (dry = true → fs w' = fs w)
        ∧ (dry = false → removable w p → fs w' !! p = None).
Proof.
  destruct dry.
  - eexists. split; [done|]. repeat split; try done.
  - destruct (rm_rf_run w p) as (w' & E & Hlog & Hden & _ & Hfs).
    exists w'. split; [done|]. split; [done|]. split; [done|].
    unfold removable. rewrite Hfs.
    destruct (fs w !! p) as [[c t | t | t]|] eqn:Ep.
    + destruct (decide (p ∈ denied w)).
      * split; [done|]. split; [done|]. by intros _ ?.
      * split; [apply delete_subseteq|]. split; [done|].
        intros _ _. apply lookup_delete_eq.
    + destruct (decide (blocked w p)).
      * split; [done|]. split; [done|]. by intros _ ?.
      * split; [apply map_filter_subseteq|]. split; [done|].
        intros _ _. apply lookup_filter_under. by rewrite under_self.
    + destruct (decide (p ∈ denied w)).
      * split; [done|]. split; [done|]. by intros _ ?.
      * split; [apply delete_subseteq|]. split; [done|].
        intros _ _. apply lookup_delete_eq.
    + split; [done|]. split; [done|]. by intros _ _.
Qed.

(** The removal loop of [Clean.run]. *)
Lemma Clean_remove_run garbage_list dry_run : ∀ w,
  ∃ w', Clean_remove garbage_list dry_run w = (Ok tt, w')
        ∧ log w'
          = (log w ++ map (fun p => "removing " +:+ p) garbage_list)%list
        ∧ denied w' = denied w
        ∧ fs w' ⊆ fs w
        ∧ (dry_run = true → fs w' = fs w)
        ∧ (dry_run = false →
           ∀ p, p ∈ garbage_list → removable w p → fs w' !! p = None).
Proof.
  unfold Clean_remove.
  induction garbage_list as [|p0 l IH]; intros w; simpl.
  - exists w. split; [done|]. rewrite app_nil_r.
    repeat split; try done. intros _ p Hp. by apply elem_of_nil in Hp.
  - destruct (rm_rf_step p0 dry_run w)
      as (w1 & E1 & Hlog1 & Hden1 & Hsub1 & Hdry1 & Hrm1).
    destruct (IH w1) as (w' & E & Hlog & Hden & Hsub & Hdry & Hrm).
    exists w'. unfold_M. rewrite E1. split; [done|].
    split; [rewrite Hlog, Hlog1; by rewrite <- app_assoc|].
    split; [congruence|]. split; [by etrans|].
    split; [intros Hd; rewrite Hdry, Hdry1; done|].
    intros Hd p Hp Hr. apply elem_of_cons in Hp as [-> | Hp].
    + eapply lookup_weaken_None; [|exact Hsub]. by apply Hrm1.
    + destruct (removable_mono w w1 p Hsub1 Hden1 Hr) as [Hr1 | Hnone].
      * by apply Hrm.
      * by eapply lookup_weaken_None.
Qed.

(** X10.  The removal loop of [Clean.run] never raises, whatever the
    paths and whatever the system refuses: it logs one line per path, in
    order, and only removes entries (what is left was there before, as it
    was).  In a dry run the file system is unchanged.  Otherwise every
    listed path that the system lets it remove is gone at the end. *)
Theorem Clean_remove_outcome garbage_list dry_run w :
  ∃ w', Clean_remove garbage_list dry_run w = (Ok tt, w')
        ∧ log w'
          = (log w ++ map (fun p => "removing " +:+ p) garbage_list)%list
        ∧ denied w' = denied w
        ∧ fs w' ⊆ fs w
        ∧ (dry_run = true → fs w' = fs w)
        ∧ (dry_run = false →
           ∀ p, p ∈ garbage_list → removable w p → fs w' !! p = None).
Proof. apply Clean_remove_run. Qed.

(** X11.  Once the base [clean] command has returned, [Clean.run] does
    not raise.  In a dry run it removes nothing.  Otherwise the marker
    file, the generated configuration and the generated version file are
    gone, and so is every other path of its list (the [build] directory,
    the patched sources, the links in [src] and [patches]), each provided
    the system lets it be removed. *)
Theorem Clean_run_outcome clean_run dry_run w w1 :
  clean_run w = (Ok tt, w1) →
  ∃ w', Clean_run clean_run dry_run w = (Ok tt, w')
        ∧ fs w' ⊆ fs w1
        ∧ (dry_run = true → fs w' = fs w1)
        ∧ (dry_run = false →
           (∀ p, p ∈ ["DEFAULT_HADOOP_HOME"; "pydoop/config.py";
                       "pydoop/version.py"] →
                 removable w1 p → fs w' !! p = None)
           ∧ ∀ p, p ∈ Clean_garbage_list (fs w1) → removable w1 p →
                  fs w' !! p = None).
Proof.
  intros Hbase. unfold Clean_run, with_fs. unfold_M. rewrite Hbase.
  destruct (Clean_remove_run (Clean_garbage_list (fs w1)) dry_run w1)
    as (w' & E & _ & _ & Hsub & Hdry & Hrm).
  exists w'. split; [done|]. split; [done|]. split; [done|].
  intros Hd. split; [|by apply Hrm].
  intros p Hp. apply Hrm; [done|].
  unfold Clean_garbage_list. apply elem_of_app. by left.
Qed.

(** The sample tree after a build, with a patched source and a link, and
    a base [clean] command that does nothing. *)
Definition dirty_world : World :=
  {| fs := <["DEFAULT_HADOOP_HOME" := File "/opt/hadoop" 6]>
             (<["pydoop/config.py" := File "" 6]>
                (<["src/hdfs.c.patched" := File "" 6]>
                   (<["src/libhdfs_link" := Link "src/libhdfs"]>
                      (fs built_world))));
     denied := ∅; clock := 12; log := []; trace := [];
     EXTENSION_MODULES := [] |}.

Lemma Clean_run_outcome_witness :
  ∃ w', Clean_run (ret tt) false dirty_world = (Ok tt, w')
        ∧ fs w' ⊆ fs dirty_world
        ∧ (false = true → fs w' = fs dirty_world)
        ∧ (false = false →
           (∀ p, p ∈ ["DEFAULT_HADOOP_HOME"; "pydoop/config.py";
                       "pydoop/version.py"] →
                 removable dirty_world p → fs w' !! p = None)
           ∧ ∀ p, p ∈ Clean_garbage_list (fs dirty_world) →
                  removable dirty_world p → fs w' !! p = None).
Proof.
  apply (Clean_run_outcome (ret tt) false dirty_world dirty_world).
  reflexivity.
Defined.

(** On that tree the command removes the generated files, the build
    directory, the patched source and the link, and keeps the directory
    the link pointed to and the version declaration. *)
Lemma Clean_run_dirty_world :
  let res := Clean_run (ret tt) false dirty_world in
  res.1 = Ok tt
  ∧ map (fun p => fs res.2 !! p)
      ["DEFAULT_HADOOP_HOME"; "pydoop/config.py"; "pydoop/version.py";
       "build"; "src/hdfs.c.patched"; "src/libhdfs_link"]
    = [None; None; None; None; None; None]
  ∧ fs res.2 !! "src/libhdfs" = Some (Dir 1)
  ∧ fs res.2 !! "VERSION" = fs dirty_world !! "VERSION".
Proof. vm_compute. repeat split; reflexivity. Qed.

(** ** Reading the version and the revision *)

(** Every character of [s] is in [P]. *)
Fixpoint all_chars (P : ascii → bool) (s : string) : bool :=
  match s with
  | EmptyString => true
  | String c s' => P c && all_chars P s'
  end.

(** [s] neither starts nor ends with a character of [P]. *)
Definition trimmed (P : ascii → bool) (s : string) : Prop :=
  (∀ c r, s = String c r → P c = false)
  ∧ (∀ r c, s = r +:+ String c "" → P c = false).

Lemma string_app_nil_r s : s +:+ "" = s.
Proof.
  induction s as [|c s IH]; [done|]. by rewrite string_app_cons, IH.
Qed.

Lemma lstrip_split s :
  ∃ pre, s = pre +:+ lstrip s ∧ all_chars is_space pre = true
         ∧ ∀ c r, lstrip s = String c r → is_space c = false.
Proof.
  induction s as [|a s (pre & E & Hpre & Hhead)]; simpl.
  - exists "". done.
  - destruct (is_space a) eqn:Ea.
    + exists (String a pre). rewrite string_app_cons, <- E. simpl.
      by rewrite Ea, Hpre.
    + exists "". split; [done|]. split; [done|]. by intros c r [= <- _].
Qed.

Lemma rstrip_by_split drop s :
  ∃ post, s = rstrip_by drop s +:+ post ∧ all_chars drop post = true
          ∧ ∀ r c, rstrip_by drop s = r +:+ String c "" → drop c = false.
Proof.
  induction s as [|a s (post & E & Hpost & Hlast)]; simpl.
  - exists "". split; [done|]. split; [done|].
    intros [|b r] c; rewrite ?string_app_cons, ?string_app_nil; done.
  - destruct (rstrip_by drop s) as [|b t] eqn:Er.
    + rewrite string_app_nil in E. subst post.
      destruct (drop a) eqn:Ea.
      * exists (String a s). rewrite string_app_nil. simpl.
        rewrite Ea, Hpost. split; [done|]. split; [done|].
        intros [|b r] c; rewrite ?string_app_cons, ?string_app_nil; done.
      * exists s. split; [done|]. split; [done|].
        intros [|b r] c; rewrite ?string_app_cons, ?string_app_nil.
        -- by intros [= <-].
        -- intros [= _ H]. destruct r; done.
    + exists post. rewrite string_app_cons, <- E.
      split; [done|]. split; [done|].
      intros [|b' r] c; rewrite ?string_app_cons, ?string_app_nil.
      * done.
      * intros [= _ H]. by apply (Hlast r c).
Qed.

Lemma rstrip_by_head drop a s c r :
  rstrip_by drop (String a s) = String c r → c = a.
Proof.
  simpl. destruct (rstrip_by drop s); [destruct (drop a)|]; congruence.
Qed.

(** [text.strip()]: the text is white space, then the result, then white
    space, and the result neither starts nor ends with white space. *)
Lemma strip_spec text :
  ∃ pre post,
    text = pre +:+ strip text +:+ post
    ∧ all_chars is_space pre = true ∧ all_chars is_space post = true
    ∧ trimmed is_space (strip text).
Proof.
  unfold strip.
  destruct (lstrip_split text) as (pre & E1 & Hpre & Hhead).
  destruct (rstrip_by_split is_space (lstrip text)) as (post & E2 & Hpost & Hl).
  exists pre, post. split; [by rewrite <- E2|].
  split; [done|]. split; [done|]. split; [|done].
  intros c r Hc. destruct (lstrip text) as [|a s] eqn:El; [done|].
  apply rstrip_by_head in Hc as ->. by apply (Hhead a s).
Qed.

(** X12.  [get_version_string] never changes the world.  When the file
    can be read it returns its content without the white space around it:
    the content is white space, the result, white space, and the result
    neither starts nor ends with white space.  When the file cannot be
    read (missing, a directory, a dangling link) it raises the setup error
    ["failed to read version info"], never the [IOError] of [open]. *)
Theorem get_version_string_outcome filename w :
  let res := get_version_string filename w in
  res.2 = w
  ∧ match content (fs w) filename with
    | Some text =>
        ∃ v pre post,
          res.1 = Ok v
          ∧ text = pre +:+ v +:+ post
          ∧ all_chars is_space pre = true ∧ all_chars is_space post = true
          ∧ trimmed is_space v
    | None => res.1 = Raise (DistutilsSetupError "failed to read version info")
    end.
Proof.
  cbv zeta. unfold get_version_string, read_file, content. unfold_M.
  destruct (stat (fs w) filename) as [[text t | t | t]|]; simpl;
    try done.
  split; [done|]. destruct (strip_spec text) as (pre & post & H).
  exists (strip text), pre, post. by split.
Qed.

(** X13.  [get_git_commit] calls git once and changes nothing else of the
    world: the call is the one event it adds.  When [git] prints
    the revision, the result is that output without its trailing newlines:
    the output is the result followed by newlines only, and the result
    does not end with a newline.  When [git] exits with a non-zero status
    the result is [None].  When [git] cannot be executed the [OSError] of
    [subprocess] is the outcome. *)
Theorem get_git_commit_outcome env w :
  let res := get_git_commit env w in
  let newline := fun c : ascii => bool_decide (c = "010"%char) in
  res.2 = add_event git_event w
  ∧ match git_rev_parse_HEAD env with
    | Output out =>
        ∃ rev post,
          res.1 = Ok (Some rev)
          ∧ out = rev +:+ post
          ∧ all_chars newline post = true
          ∧ ∀ r c, rev = r +:+ String c "" → newline c = false
    | ExitNonZero => res.1 = Ok None
    | CannotExecute => res.1 = Raise OSError
    end.
Proof.
  cbv zeta. unfold get_git_commit, subprocess_check_output_git. unfold_M.
  destruct (git_rev_parse_HEAD env) as [out | |]; simpl; try done.
  split; [done|]. unfold rstrip_nl.
  destruct (rstrip_by_split (fun c => bool_decide (c = "010"%char)) out)
    as (post & E & Hpost & Hlast).
  eexists _, post. split; [done|]. by split.
Qed.

(** ** Regenerating the version file twice *)

(** X14.  When [write_version] has returned normally, on a target and a
    version file that are two different paths, neither a symbolic link,
    and the version file is not stamped later than the clock, a second
    call does nothing: it returns normally and leaves the world as the
    first call left it. *)
Theorem write_version_twice env filename w w1 :
  nolink (fs w) "VERSION" →
  nolink (fs w) filename →
  filename ≠ "VERSION" →
  (∀ tv, mtime_of w "VERSION" = Some tv → tv ≤ clock w) →
  write_version env filename w = (Ok tt, w1) →
  write_version env filename w1 = (Ok tt, w1).
Proof.
  intros HV HF Hne Hclock E.
  pose proof E as E'. rewrite write_version_run in E' by done.
  destruct (version_plan env (fs w !! "VERSION") (fs w !! filename))
    as [| e | text] eqn:Ep; simpl in E'.
  - injection E' as <-. by rewrite write_version_run, Ep.
  - by destruct e.
  - unfold written in E'.
    destruct (writable (fs w) (denied w) filename) eqn:Ew; [|done].
    injection E' as <-.
    assert (∃ v tv, fs w !! "VERSION" = Some (File v tv)) as (v & tv & EV).
    { revert Ep. unfold version_plan.
      destruct (fs w !! "VERSION") as [[v tv | tv | tv]|];
        repeat case_match; try done; eauto. }
    assert (S1 : stat (fs (wr filename text (git_called w))) filename
                 = Some (File text (clock w))).
    { rewrite stat_nonlink by (rewrite fs_wr; by apply nolink_wr_fs).
      by apply (fs_wr_written _ _ (git_called w)). }
    assert (S2 : stat (fs (wr filename text (git_called w))) "VERSION"
                 = Some (File v tv)).
    { rewrite stat_nonlink by (rewrite fs_wr; by apply nolink_wr_fs).
      by rewrite fs_wr_other. }
    apply write_version_up_to_date.
    + unfold missing. by rewrite S1.
    + unfold missing. by rewrite S2.
    + intros (tp & tt & H1 & H2 & Hlt). unfold mtime_of in H1, H2.
      rewrite S2 in H1. rewrite S1 in H2. simpl in H1, H2.
      injection H1 as <-. injection H2 as <-.
      specialize (Hclock tv). unfold mtime_of in Hclock.
      rewrite stat_nonlink, EV in Hclock by done. simpl in Hclock.
      specialize (Hclock eq_refl). lia.
Qed.

Lemma write_version_twice_witness :
  write_version native_env "pydoop/version.py"
    (write_version native_env "pydoop/version.py" sample_world).2
  = (Ok tt, (write_version native_env "pydoop/version.py" sample_world).2).
Proof.
  apply (write_version_twice native_env "pydoop/version.py" sample_world).
  - intros t. vm_compute. discriminate.
  - intros t. vm_compute. discriminate.
  - done.
  - intros tv H. vm_compute in H. injection H as <-. vm_compute.
    discriminate.
  - vm_compute. reflexivity.
Defined.

(** ** The command line of the compiler *)

(** The strings of a list, one after the other. *)
Definition join_all (l : list string) : string := foldr String.append "" l.

Lemma fold_left_spaced files : ∀ cmd,
  fold_left (fun cmd f => cmd +:+ " " +:+ f) files cmd
  = cmd +:+ join_all (map (fun f => " " +:+ f) files).
Proof.
  induction files as [|f files IH]; intros cmd; simpl.
  - by rewrite string_app_nil_r.
  - rewrite IH. by rewrite !string_app_assoc.
Qed.

(** X15.  The command line [__build_java_lib] runs is [javac], then the
    [-classpath] option when a class path is set (and not empty), then
    [-d] with the class directory in single quotes, then every source file
    of the library, in the order of its list, each after one space. *)
Theorem javac_command_shape class_dir jlib :
  javac_command class_dir jlib
  = "javac"
    +:+ (match classpath jlib with
         | Some cp => if bool_decide (cp = "") then ""
                      else " -classpath " +:+ cp
         | None => ""
         end)
    +:+ " -d '" +:+ class_dir +:+ "'"
    +:+ join_all (map (fun f => " " +:+ f) (java_files jlib)).
Proof.
  unfold javac_command. rewrite fold_left_spaced. unfold truthy, fmt_s.
  destruct (classpath jlib) as [cp|]; simpl.
  - destruct (bool_decide (cp = "")); simpl;
      by rewrite ?string_app_assoc.
  - by rewrite ?string_app_assoc.
Qed.
